(** * QRScanner: the scan loop and status machine of src/components/QRScanner.tsx

    The component is embedded as state-passing code over a [World] that
    holds the React state of the component, its three refs, the platform's
    animation-frame queue and the log of every call the component makes
    (state setters and collaborators), in program order.

    A [useCallback] closure reads the values of the render that created it,
    not the current state: [scanQRCode] therefore takes the captured
    [isScanning] and [status] as an explicit [Closure], and the state it
    writes through the setters becomes visible to the next render only. *)

From Stdlib Require Import List String NArith ZArith Bool Lia.
Import ListNotations.
Local Open Scope string_scope.
Local Open Scope list_scope.

(** ** Data model *)

(** type ScannerStatus = 'initializing' | 'scanning' | 'detected' | 'error' | 'no-camera' *)
Inductive ScannerStatus :=
| initializing
| scanning
| detected
| error
| no_camera.

Definition ScannerStatus_eqb (a b : ScannerStatus) : bool :=
  match a, b with
  | initializing, initializing
  | scanning, scanning
  | detected, detected
  | error, error
  | no_camera, no_camera => true
  | _, _ => false
  end.

(** A camera track, named by the platform. *)
Definition Track := nat.

(** MediaStream: what [getTracks()] returns. *)
Record MediaStream := { getTracks : list Track }.

(** The <video> element as the component uses it: only [srcObject] is
    written by the code.  [readyState], [videoWidth] and [videoHeight]
    change under the platform's control and are read once per tick, so they
    are part of the per-tick input [FrameEnv]. *)
Record Video := { srcObject : option MediaStream }.

(** The hidden <canvas>: its size is assigned by every decoding tick. *)
Record Canvas := { width : Z; height : Z }.

(** What jsQR returns when it finds a code (only [data] is read). *)
Record QRCode := { data : string }.

(** HTMLMediaElement.HAVE_ENOUGH_DATA *)
Definition HAVE_ENOUGH_DATA : Z := 4.

(** What one invocation of [scanQRCode] reads from the platform:
    whether [canvas.getContext('2d')] returned a context, the video's
    [readyState] and frame size, and the value of
    [jsQR(imageData.data, imageData.width, imageData.height)] on the frame
    drawn into the canvas ([None] is JavaScript's null: a miss). *)
Record FrameEnv := {
  context2d : bool;
  readyState : Z;
  videoWidth : Z;
  videoHeight : Z;
  code : option QRCode
}.

(** The values a [scanQRCode] callback captured from its render
    (dependency list [isScanning, status, updateStatus]; [updateStatus] is
    stable). *)
Record Closure := { cap_isScanning : bool; cap_status : ScannerStatus }.

Definition Closure_eqb (a b : Closure) : bool :=
  Bool.eqb (cap_isScanning a) (cap_isScanning b)
  && ScannerStatus_eqb (cap_status a) (cap_status b).

(** toast({ ..., variant }) : absent variant is the default one. *)
Inductive Variant := variant_default | variant_destructive.

(** What the promise of [getUserMedia] can reject with. *)
Inductive MediaError :=
| NotAllowedError
| NotFoundError
| OtherError (name : string).

(** How the acquisition at mount ends.  [ApiAbsent]:
    [navigator.mediaDevices] is undefined, so evaluating
    [navigator.mediaDevices.getUserMedia] throws inside the [try] before any
    request is made. *)
Inductive Acquisition :=
| Granted (stream : MediaStream)
| Rejected (e : MediaError)
| ApiAbsent.

(** Every call the component makes, in program order. *)
Inductive Call :=
| EvGetUserMedia (facingMode : string) (idealWidth idealHeight : Z)
| EvPlay
| EvSetIsScanning (b : bool)
| EvSetStatus (s : ScannerStatus)
| EvSetStatusMessage (m : string)
| EvSetResult (r : string)
| EvConsoleError (label : string)
| EvConsoleLog (args : list string)
| EvToast (title description : string) (variant : Variant)
| EvAlert (message : string)
| EvRequestAnimationFrame (handle : N) (callback : Closure)
| EvCancelAnimationFrame (handle : N)
| EvTrackStop (t : Track).

(** The component instance together with the part of the platform it
    talks to. *)
Record World := {
  (* useState *)
  status : ScannerStatus;
  result : string;
  statusMessage : string;
  isScanning : bool;
  (* useRef *)
  videoRef : option Video;
  canvasRef : option Canvas;
  animationFrameRef : option N;
  (* the scanQRCode of the last committed render *)
  rendered : Closure;
  (* platform: last animation-frame handle issued, callbacks outstanding *)
  raf_counter : N;
  pending : list (N * Closure);
  (* log of calls, oldest first *)
  calls : list Call
}.

(** ** A state monad over [World] *)

Definition M (A : Type) : Type := World -> A * World.

Definition ret {A} (a : A) : M A := fun w => (a, w).

Definition bind {A B} (m : M A) (k : A -> M B) : M B :=
  fun w => let (a, w') := m w in k a w'.

Declare Scope scanner_scope.
Delimit Scope scanner_scope with scanner.
Notation "x <- m ;; k" := (bind m (fun x => k))
  (at level 61, m at next level, right associativity) : scanner_scope.
Notation "m ;; k" := (bind m (fun _ => k))
  (at level 61, right associativity) : scanner_scope.
Local Open Scope scanner_scope.

Definition exec {A} (m : M A) (w : World) : World := snd (m w).

Definition get {A} (f : World -> A) : M A := fun w => (f w, w).

Definition modify (f : World -> World) : M unit := fun w => (tt, f w).

Definition when (b : bool) (m : M unit) : M unit := if b then m else ret tt.

(** Field updates. *)
Definition with_status (s : ScannerStatus) (w : World) : World :=
  {| status := s; result := result w; statusMessage := statusMessage w;
     isScanning := isScanning w; videoRef := videoRef w; canvasRef := canvasRef w;
     animationFrameRef := animationFrameRef w; rendered := rendered w;
     raf_counter := raf_counter w; pending := pending w; calls := calls w |}.

Definition with_result (r : string) (w : World) : World :=
  {| status := status w; result := r; statusMessage := statusMessage w;
     isScanning := isScanning w; videoRef := videoRef w; canvasRef := canvasRef w;
     animationFrameRef := animationFrameRef w; rendered := rendered w;
     raf_counter := raf_counter w; pending := pending w; calls := calls w |}.

Definition with_statusMessage (m : string) (w : World) : World :=
  {| status := status w; result := result w; statusMessage := m;
     isScanning := isScanning w; videoRef := videoRef w; canvasRef := canvasRef w;
     animationFrameRef := animationFrameRef w; rendered := rendered w;
     raf_counter := raf_counter w; pending := pending w; calls := calls w |}.

Definition with_isScanning (b : bool) (w : World) : World :=
  {| status := status w; result := result w; statusMessage := statusMessage w;
     isScanning := b; videoRef := videoRef w; canvasRef := canvasRef w;
     animationFrameRef := animationFrameRef w; rendered := rendered w;
     raf_counter := raf_counter w; pending := pending w; calls := calls w |}.

Definition with_videoRef (v : option Video) (w : World) : World :=
  {| status := status w; result := result w; statusMessage := statusMessage w;
     isScanning := isScanning w; videoRef := v; canvasRef := canvasRef w;
     animationFrameRef := animationFrameRef w; rendered := rendered w;
     raf_counter := raf_counter w; pending := pending w; calls := calls w |}.

Definition with_canvasRef (c : option Canvas) (w : World) : World :=
  {| status := status w; result := result w; statusMessage := statusMessage w;
     isScanning := isScanning w; videoRef := videoRef w; canvasRef := c;
     animationFrameRef := animationFrameRef w; rendered := rendered w;
     raf_counter := raf_counter w; pending := pending w; calls := calls w |}.

Definition with_animationFrameRef (h : option N) (w : World) : World :=
  {| status := status w; result := result w; statusMessage := statusMessage w;
     isScanning := isScanning w; videoRef := videoRef w; canvasRef := canvasRef w;
     animationFrameRef := h; rendered := rendered w;
     raf_counter := raf_counter w; pending := pending w; calls := calls w |}.

Definition with_rendered (cl : Closure) (w : World) : World :=
  {| status := status w; result := result w; statusMessage := statusMessage w;
     isScanning := isScanning w; videoRef := videoRef w; canvasRef := canvasRef w;
     animationFrameRef := animationFrameRef w; rendered := cl;
     raf_counter := raf_counter w; pending := pending w; calls := calls w |}.

Definition with_queue (n : N) (q : list (N * Closure)) (w : World) : World :=
  {| status := status w; result := result w; statusMessage := statusMessage w;
     isScanning := isScanning w; videoRef := videoRef w; canvasRef := canvasRef w;
     animationFrameRef := animationFrameRef w; rendered := rendered w;
     raf_counter := n; pending := q; calls := calls w |}.

Definition with_calls (l : list Call) (w : World) : World :=
  {| status := status w; result := result w; statusMessage := statusMessage w;
     isScanning := isScanning w; videoRef := videoRef w; canvasRef := canvasRef w;
     animationFrameRef := animationFrameRef w; rendered := rendered w;
     raf_counter := raf_counter w; pending := pending w; calls := l |}.

(** Record a call at the end of the log. *)
Definition call (c : Call) : M unit :=
  modify (fun w => with_calls (calls w ++ [c]) w).

(** ** Collaborators *)

(** The React state setters: the new value is what the next render sees. *)
Definition setStatus (s : ScannerStatus) : M unit :=
  call (EvSetStatus s) ;; modify (with_status s).

Definition setStatusMessage (m : string) : M unit :=
  call (EvSetStatusMessage m) ;; modify (with_statusMessage m).

Definition setResult (r : string) : M unit :=
  call (EvSetResult r) ;; modify (with_result r).

Definition setIsScanning (b : bool) : M unit :=
  call (EvSetIsScanning b) ;; modify (with_isScanning b).

Definition toast (title description : string) (variant : Variant) : M unit :=
  call (EvToast title description variant).

(** window.requestAnimationFrame: the platform increments its callback
    identifier, queues the callback under it and returns it (handles are
    therefore never 0). *)
Definition requestAnimationFrame (cb : Closure) : M N :=
  fun w =>
    let h := N.succ (raf_counter w) in
    (h, with_calls (calls w ++ [EvRequestAnimationFrame h cb])
          (with_queue h (pending w ++ [(h, cb)]) w)).

(** window.cancelAnimationFrame: drops the callback queued under [h]
    (nothing happens when there is none). *)
Definition cancelAnimationFrame (h : N) : M unit :=
  call (EvCancelAnimationFrame h) ;;
  modify (fun w =>
    with_queue (raf_counter w)
      (filter (fun e => negb (N.eqb (fst e) h)) (pending w)) w).

(** stream.getTracks().forEach(track => track.stop()) *)
Fixpoint stopTracks (ts : list Track) : M unit :=
  match ts with
  | [] => ret tt
  | t :: ts' => call (EvTrackStop t) ;; stopTracks ts'
  end.

(** JavaScript truthiness of [animationFrameRef.current]
    (number | undefined): undefined and 0 are falsy. *)
Definition truthy_handle (r : option N) : option N :=
  match r with
  | Some h => if N.eqb h 0 then None else Some h
  | None => None
  end.

(** JavaScript truthiness of a string: only the empty string is falsy. *)
Definition truthy_string (s : string) : bool :=
  match s with
  | EmptyString => false
  | String _ _ => true
  end.

(** ** The component's functions *)

(** updateStatus (lines 20-23) *)
Definition updateStatus (newStatus : ScannerStatus) (message : string) : M unit :=
  setStatus newStatus ;;
  setStatusMessage message.

(** The [catch] block of [startCamera] (lines 41-49). *)
Definition cameraError : M unit :=
  call (EvConsoleError "Camera access error:") ;;
  updateStatus no_camera "Camera access denied or not available" ;;
  toast "Camera Error" "Unable to access camera. Please check permissions."
        variant_destructive.

(** startCamera (lines 25-50), as a function of how the awaited request
    ends.  No state changes between the call and the continuation, since
    [isScanning] is false until the continuation sets it. *)
Definition startCamera (o : Acquisition) : M unit :=
  match o with
  | ApiAbsent => cameraError
  | Rejected _ =>
      call (EvGetUserMedia "environment" 640 480) ;;
      cameraError
  | Granted stream =>
      call (EvGetUserMedia "environment" 640 480) ;;
      v <- get videoRef ;;
      match v with
      | Some _ =>
          modify (with_videoRef (Some {| srcObject := Some stream |})) ;;
          call EvPlay ;;
          setIsScanning true ;;
          updateStatus scanning "Scanning for QR code..."
      | None => ret tt
      end
  end.

(** The tail of both continuing paths of [scanQRCode]:
    [animationFrameRef.current = requestAnimationFrame(scanQRCode)].
    The callback passed is the running one. *)
Definition scheduleNext (self : Closure) : M unit :=
  h <- requestAnimationFrame self ;;
  modify (with_animationFrameRef (Some h)).

(** Whether this invocation gets past the readiness guard of line 59. *)
Definition ready (env : FrameEnv) : bool :=
  context2d env && Z.eqb (readyState env) HAVE_ENOUGH_DATA.

(** scanQRCode (lines 52-85); [self] carries the [isScanning] and [status]
    the callback captured. *)
Definition scanQRCode (self : Closure) (env : FrameEnv) : M unit :=
  v <- get videoRef ;;
  c <- get canvasRef ;;
  match v, c, cap_isScanning self with
  | Some _, Some _, true =>
      if negb (ready env) then
        scheduleNext self
      else
        modify (with_canvasRef
                  (Some {| width := videoWidth env; height := videoHeight env |})) ;;
        match code env with
        | Some qr =>
            setResult (data qr) ;;
            updateStatus detected "QR code detected and decoded!" ;;
            toast "QR Code Found!" "Successfully decoded QR code" variant_default
        | None =>
            when (negb (ScannerStatus_eqb (cap_status self) scanning))
                 (updateStatus scanning "Scanning for QR code...")
        end ;;
        scheduleNext self
  | _, _, _ => ret tt
  end.

(** handleSubmit (lines 87-102); [r] is the [result] of the render whose
    button was clicked. *)
Definition handleSubmit (r : string) : M unit :=
  if truthy_string r then
    call (EvConsoleLog ["QR Code Result:"; r]) ;;
    toast "Result Submitted" ("Logged to console: " ++ r)%string variant_default ;;
    call (EvAlert ("QR Code Result: " ++ r)%string)
  else
    toast "No Result" "Please scan a QR code first" variant_destructive.

(** Lines 108-110 and 124-126: cancel the request kept in the ref. *)
Definition cancelPendingFrame : M unit :=
  r <- get animationFrameRef ;;
  match truthy_handle r with
  | Some h => cancelAnimationFrame h
  | None => ret tt
  end.

(** Cleanup of the mount effect (lines 107-115). *)
Definition mountEffectCleanup : M unit :=
  cancelPendingFrame ;;
  v <- get videoRef ;;
  match v with
  | Some {| srcObject := Some stream |} => stopTracks (getTracks stream)
  | _ => ret tt
  end.

(** Body and cleanup of the scan effect (lines 118-128), for the render
    whose callback is [cl]. *)
Definition scanEffect (cl : Closure) (env : FrameEnv) : M unit :=
  when (cap_isScanning cl) (scanQRCode cl env).

Definition scanEffectCleanup : M unit := cancelPendingFrame.

(** ** The session as a transition system *)

Definition closure_of (w : World) : Closure :=
  {| cap_isScanning := isScanning w; cap_status := status w |}.

(** The component after its first render, before the mount effects:
    [v] and [c] are what React put in [videoRef] and [canvasRef]. *)
Definition init (v : option Video) (c : option Canvas) : World :=
  {| status := initializing; result := "";
     statusMessage := "Initializing camera..."; isScanning := false;
     videoRef := v; canvasRef := c; animationFrameRef := None;
     rendered := {| cap_isScanning := false; cap_status := initializing |};
     raf_counter := 0%N; pending := []; calls := [] |}.

(** Mount: the mount effect calls [startCamera]; the scan effect of the
    first render does nothing, [isScanning] being false. *)
Definition mount (v : option Video) (c : option Canvas) (o : Acquisition) : World :=
  exec (startCamera o ;;
        scanEffect {| cap_isScanning := false; cap_status := initializing |}
                   {| context2d := false; readyState := 0; videoWidth := 0;
                      videoHeight := 0; code := None |})
       (init v c).

(** What can happen to a mounted component.
    - [AFrame env]: the platform runs the oldest outstanding animation-frame
      callback, which reads [env].
    - [ACommit env]: React commits a render in which [isScanning] or
      [status] differs from the last committed one.  [scanQRCode] is a new
      function, so the scan effect is cleaned up and run again, and calls
      the new [scanQRCode], which reads [env].
    - [ASubmit]: the user clicks Submit, in the render that shows the
      current [result].
    A frame may run before the commit that follows a state change: the
    callback it runs is then the one of the previous render, with the values
    that render captured. *)
Inductive Action :=
| AFrame (env : FrameEnv)
| ACommit (env : FrameEnv)
| ASubmit.

Definition step (a : Action) (w : World) : option World :=
  match a with
  | AFrame env =>
      match pending w with
      | (h, cb) :: rest =>
          Some (exec (scanQRCode cb env) (with_queue (raf_counter w) rest w))
      | [] => None
      end
  | ACommit env =>
      if Closure_eqb (rendered w) (closure_of w) then None
      else
        Some (exec (scanEffectCleanup ;;
                    modify (with_rendered (closure_of w)) ;;
                    scanEffect (closure_of w) env) w)
  | ASubmit => Some (exec (handleSubmit (result w)) w)
  end.

Fixpoint run (acts : list Action) (w : World) : option World :=
  match acts with
  | [] => Some w
  | a :: acts' =>
      match step a w with
      | Some w' => run acts' w'
      | None => None
      end
  end.

(** React detaches the refs of the deleted <video> and <canvas> in the
    commit that removes the component, before it runs any [useEffect]
    cleanup: by then [videoRef.current] and [canvasRef.current] are null.
    [animationFrameRef] is not attached to an element and keeps its value. *)
Definition detachRefs : M unit :=
  modify (with_videoRef None) ;;
  modify (with_canvasRef None).

(** Unmount: React detaches the refs, then runs the cleanup of both
    effects, in declaration order. *)
Definition unmount : M unit :=
  detachRefs ;;
  mountEffectCleanup ;;
  scanEffectCleanup.

(** ** Reading the log *)

(** Notifications by variant, camera requests, the calls of Manual Submit
    to the diagnostic log and to the blocking acknowledgment. *)
Definition is_toast (v : Variant) (c : Call) : bool :=
  match c, v with
  | EvToast _ _ variant_default, variant_default => true
  | EvToast _ _ variant_destructive, variant_destructive => true
  | _, _ => false
  end.

Definition is_getUserMedia (c : Call) : bool :=
  match c with EvGetUserMedia _ _ _ => true | _ => false end.

Definition is_log_or_alert (c : Call) : bool :=
  match c with EvConsoleLog _ | EvAlert _ => true | _ => false end.

Definition count (p : Call -> bool) (l : list Call) : nat :=
  List.length (filter p l).

(** The notification of a successful decode (lines 74-77). *)
Definition detect_toast : Call :=
  EvToast "QR Code Found!" "Successfully decoded QR code" variant_default.

(** The notification of a failed acquisition (lines 44-48), by its title. *)
Definition is_camera_error (c : Call) : bool :=
  match c with
  | EvToast title _ _ => String.eqb title "Camera Error"
  | _ => false
  end.

Definition is_track_stop (c : Call) : bool :=
  match c with EvTrackStop _ => true | _ => false end.

Definition is_any_toast (c : Call) : bool :=
  match c with EvToast _ _ _ => true | _ => false end.

(** The tracks the mount cleanup reaches: those of the stream attached to
    the video element that [videoRef] holds. *)
Definition attached_tracks (w : World) : list Track :=
  match videoRef w with
  | Some {| srcObject := Some stream |} => getTracks stream
  | _ => []
  end.

(** The cancellation each cleanup issues. *)
Definition cancel_calls (w : World) : list Call :=
  match truthy_handle (animationFrameRef w) with
  | Some h => [EvCancelAnimationFrame h]
  | None => []
  end.

(** The acquisitions that end in the [catch] block. *)
Definition failed (o : Acquisition) : bool :=
  match o with
  | Granted _ => false
  | Rejected _ | ApiAbsent => true
  end.

(** Frames used in the examples. *)
Definition frame (c : option QRCode) : FrameEnv :=
  {| context2d := true; readyState := HAVE_ENOUGH_DATA;
     videoWidth := 640; videoHeight := 480; code := c |}.

Definition hit (s : string) : FrameEnv := frame (Some {| data := s |}).
Definition miss : FrameEnv := frame None.

Definition camera : MediaStream := {| getTracks := [7%nat] |}.
Definition video0 : Video := {| srcObject := None |}.
Definition canvas0 : Canvas := {| width := 300; height := 150 |}.

Definition scanning0 : World := mount (Some video0) (Some canvas0) (Granted camera).

(** ** What one step attempts *)

(** Whether an invocation of [scanQRCode] gets to the call of jsQR:
    both refs set, [isScanning] captured true, frame ready. *)
Definition reaches_jsQR (self : Closure) (env : FrameEnv) (w : World) : bool :=
  match videoRef w, canvasRef w with
  | Some _, Some _ => cap_isScanning self && ready env
  | _, _ => false
  end.

(** The [scanQRCode] that step [a] invokes in [w], with the frame it reads:
    the oldest queued callback for a frame, the callback of the new render
    for a commit. *)
Definition callback_of (a : Action) (w : World) : option (Closure * FrameEnv) :=
  match a with
  | AFrame env =>
      match pending w with
      | (_, cb) :: _ => Some (cb, env)
      | [] => None
      end
  | ACommit env => Some (closure_of w, env)
  | ASubmit => None
  end.

(** The decode attempt made by step [a] in [w], if it makes one, with what
    jsQR returned. *)
Definition decode_of (a : Action) (w : World) : option (option QRCode) :=
  match callback_of a w with
  | Some (cb, env) => if reaches_jsQR cb env w then Some (code env) else None
  | None => None
  end.

(** No decode attempt of the step returns a payload. *)
Definition missed (a : Action) (w : World) : bool :=
  match decode_of a w with
  | Some (Some _) => false
  | _ => true
  end.

(** Along the run of [acts] from [w], every decode attempt returns a miss. *)
Fixpoint all_missed (acts : list Action) (w : World) : bool :=
  match acts with
  | [] => true
  | a :: acts' =>
      missed a w &&
      match step a w with
      | Some w' => all_missed acts' w'
      | None => true
      end
  end.

(** ** Invariants of sessions *)

(** Nothing decoded so far: status [scanning], empty result, and every
    queued callback captured [scanning]. *)
Definition undetected (w : World) : Prop :=
  status w = scanning /\ result w = "" /\
  (forall e, In e (pending w) -> cap_status (snd e) = scanning).

(** At most one animation-frame request is outstanding, and its handle is
    the one kept in [animationFrameRef]. *)
Definition one_outstanding (w : World) : Prop :=
  pending w = [] \/
  exists h cb, pending w = [(h, cb)] /\ animationFrameRef w = Some h /\ h <> 0%N.

(** In a session with both refs set and [isScanning] true: either no
    commit happened yet and nothing is queued, or exactly one callback, with
    [isScanning] captured true, is queued under the handle of the ref. *)
Definition looping (w : World) : Prop :=
  videoRef w <> None /\ canvasRef w <> None /\ isScanning w = true /\
  ((rendered w = {| cap_isScanning := false; cap_status := initializing |} /\
    pending w = []) \/
   exists h cb, pending w = [(h, cb)] /\ animationFrameRef w = Some h /\
                h <> 0%N /\ cap_isScanning cb = true).

(** ** Concrete sessions *)

(** The session after its first decode of "HELLO". *)
Definition detected0 : World :=
  exec (scanEffectCleanup ;;
        modify (with_rendered (closure_of scanning0)) ;;
        scanEffect (closure_of scanning0) (hit "HELLO")) scanning0.

(** The first call of [scanQRCode], made by the scan effect, and four
    animation frames, none of which finds a code. *)
Definition five_misses : list Action :=
  [ACommit miss; AFrame miss; AFrame miss; AFrame miss; AFrame miss].

(** The session after five misses. *)
Definition after_misses : World :=
  Eval vm_compute in
    match run five_misses scanning0 with
    | Some w => w
    | None => scanning0
    end.

(** ... and after a sixth frame that decodes "HELLO". *)
Definition after_hello : World :=
  Eval vm_compute in
    match step (AFrame (hit "HELLO")) after_misses with
    | Some w => w
    | None => after_misses
    end.

(** A session whose camera permission was denied, and the same session
    after a click on Submit and a commit. *)
Definition denied0 : World :=
  mount (Some video0) (Some canvas0) (Rejected NotAllowedError).

Definition denied1 : World :=
  Eval vm_compute in
    match run [ASubmit; ACommit miss] denied0 with
    | Some w => w
    | None => denied0
    end.

(** A session whose stream arrived while [videoRef] was null, and the same
    session once the ref holds an element and Submit was clicked. *)
Definition unattached0 : World := mount None (Some canvas0) (Granted camera).

Definition unattached1 : World :=
  Eval vm_compute in
    match run [ASubmit] (with_videoRef (Some video0) unattached0) with
    | Some w => w
    | None => unattached0
    end.

(** ** What the component renders *)

(** getStatusColor (lines 130-138): 'error' falls through to 'no-camera',
    and every other status takes the default branch. *)
Definition getStatusColor (s : ScannerStatus) : string :=
  match s with
  | detected => "text-scanner-success"
  | error | no_camera => "text-scanner-error"
  | scanning => "text-scanner-glow"
  | _ => "text-scanner-warning"
  end.

(** The parts of the returned JSX (lines 140-212) that depend on the
    state: the two overlays over the video, the value of the read-only
    input, the class and text of the status area, and the [disabled]
    attribute of the Submit button. *)
Record View := {
  scanning_overlay : bool;
  success_overlay : bool;
  input_value : string;
  status_className : string;
  status_text : string;
  submit_disabled : bool
}.

Definition render (w : World) : View :=
  {| scanning_overlay := ScannerStatus_eqb (status w) scanning;
     success_overlay := ScannerStatus_eqb (status w) detected;
     input_value := result w;
     status_className :=
       ("p-3 rounded-lg bg-muted/30 border border-border/50 "
        ++ getStatusColor (status w)
        ++ " font-medium text-center transition-colors duration-300")%string;
     status_text := statusMessage w;
     submit_disabled := negb (truthy_string (result w)) |}.

(** A click on the Submit button as rendered: a disabled button dispatches
    no click, an enabled one runs [handleSubmit] (line 203). *)
Definition clickSubmit (w : World) : World :=
  if submit_disabled (render w) then w
  else exec (handleSubmit (result w)) w.

(** ** More readers of the log and of runs *)

(** The "QR Code Found!" notification, by title and variant. *)
Definition is_detect_toast (c : Call) : bool :=
  match c with
  | EvToast title _ variant_default => String.eqb title "QR Code Found!"
  | _ => false
  end.

(** The "No Result" warning of [handleSubmit], by title. *)
Definition is_no_result_toast (c : Call) : bool :=
  match c with
  | EvToast title _ _ => String.eqb title "No Result"
  | _ => false
  end.

Definition is_console_log (c : Call) : bool :=
  match c with EvConsoleLog _ => true | _ => false end.

Definition is_alert (c : Call) : bool :=
  match c with EvAlert _ => true | _ => false end.

Definition is_request (c : Call) : bool :=
  match c with EvRequestAnimationFrame _ _ => true | _ => false end.

Definition is_play (c : Call) : bool :=
  match c with EvPlay => true | _ => false end.

(** The calls that only the acquisition and the unmount cleanup make:
    camera request, playback start, [setIsScanning], [console.error] and
    track stops. *)
Definition is_lifecycle_call (c : Call) : bool :=
  match c with
  | EvGetUserMedia _ _ _ | EvPlay | EvSetIsScanning _ | EvConsoleError _
  | EvTrackStop _ => true
  | _ => false
  end.

(** The number of steps of the run of [acts] from [w] whose decode attempt
    returns a payload. *)
Fixpoint hits (acts : list Action) (w : World) : nat :=
  match acts with
  | [] => 0
  | a :: acts' =>
      (if missed a w then 0 else 1) +
      match step a w with
      | Some w' => hits acts' w'
      | None => 0
      end
  end.

(** The message that [updateStatus] and the initial state pair with each
    status; no call pairs a message with 'error'. *)
Definition message_of (s : ScannerStatus) : option string :=
  match s with
  | initializing => Some "Initializing camera..."
  | scanning => Some "Scanning for QR code..."
  | detected => Some "QR code detected and decoded!"
  | no_camera => Some "Camera access denied or not available"
  | error => None
  end.

(** Whether an invocation of [scanQRCode] gets past the guard of line 53. *)
Definition passes_guard (self : Closure) (w : World) : bool :=
  match videoRef w, canvasRef w with
  | Some _, Some _ => cap_isScanning self
  | _, _ => false
  end.

(** A frame on which the video has not buffered enough data. *)
Definition waiting : FrameEnv :=
  {| context2d := true; readyState := 2; videoWidth := 0; videoHeight := 0;
     code := Some {| data := "HELLO" |} |}.

(** A session that decoded a code with an empty payload and then missed:
    status [scanning], empty result, and the queued callback captured
    [detected]; and the same session two missing frames later. *)
Definition stale0 : World :=
  Eval vm_compute in
    match run [ACommit (hit ""); ACommit miss] scanning0 with
    | Some w => w
    | None => scanning0
    end.

Definition stale1 : World :=
  Eval vm_compute in
    match run [AFrame miss; AFrame miss] stale0 with
    | Some w => w
    | None => stale0
    end.

(** A session in which the video surface but not the canvas was mounted. *)
Definition no_canvas0 : World := mount (Some video0) None (Granted camera).

Definition no_canvas1 : World :=
  Eval vm_compute in
    match run [ACommit (hit "HELLO"); ASubmit] no_canvas0 with
    | Some w => w
    | None => no_canvas0
    end.

(** [after_hello] followed by a commit that decodes "HELLO" again and a
    frame that misses. *)
Definition after_more : World :=
  Eval vm_compute in
    match run [ACommit (hit "HELLO"); AFrame miss] after_hello with
    | Some w => w
    | None => after_hello
    end.

(** ** Proof support *)

Lemma ScannerStatus_eqb_eq a b : ScannerStatus_eqb a b = true <-> a = b.
Proof. destruct a, b; simpl; split; intro H; congruence. Qed.

Ltac unfold_scanner :=
  cbv [exec scanQRCode scanEffect scanEffectCleanup cancelPendingFrame
       mountEffectCleanup unmount detachRefs handleSubmit startCamera
       cameraError
       scheduleNext updateStatus setStatus setStatusMessage setResult
       setIsScanning toast requestAnimationFrame cancelAnimationFrame
       call modify get when bind ret snd fst
       with_status with_result with_statusMessage with_isScanning
       with_videoRef with_canvasRef with_animationFrameRef with_rendered
       with_queue with_calls
       status result statusMessage isScanning videoRef canvasRef
       animationFrameRef rendered raf_counter pending calls].

Ltac destruct_world w :=
  let st := fresh "st" in let res := fresh "res" in let msg := fresh "msg" in
  let sc := fresh "sc" in let v := fresh "v" in let c := fresh "c" in
  let ref := fresh "ref" in let rd := fresh "rd" in let ctr := fresh "ctr" in
  let q := fresh "q" in let log := fresh "log" in
  destruct w as [st res msg sc v c ref rd ctr q log].

Ltac flatten_log := rewrite <- ?app_assoc; cbn [app].

(** ** Sanity checks on concrete runs *)

Example mount_granted_scans :
  status scanning0 = scanning /\ isScanning scanning0 = true /\
  videoRef scanning0 = Some {| srcObject := Some camera |} /\
  calls scanning0 =
    [EvGetUserMedia "environment" 640 480; EvPlay; EvSetIsScanning true;
     EvSetStatus scanning; EvSetStatusMessage "Scanning for QR code..."].
Proof. repeat split. Qed.

Example five_misses_then_hello :
  option_map (fun w => (status w, result w))
    (run [ACommit miss; AFrame miss; AFrame miss; AFrame miss; AFrame miss;
          AFrame (hit "HELLO")] scanning0)
  = Some (detected, "HELLO").
Proof. reflexivity. Qed.

(** ** Manual Submit *)

(** C7. When [result] is empty, Manual Submit raises the "No Result"
    warning notification and nothing else: no log entry, no acknowledgment,
    no success notification; every field of the state keeps its value. *)
Theorem submit_empty_warns_only (w : World) :
  result w = "" ->
  step ASubmit w =
    Some (with_calls
            (calls w ++
             [EvToast "No Result" "Please scan a QR code first"
                      variant_destructive]) w)
  /\ forall w', step ASubmit w = Some w' ->
       count is_log_or_alert (calls w') = count is_log_or_alert (calls w) /\
       count (is_toast variant_default) (calls w')
         = count (is_toast variant_default) (calls w) /\
       count (is_toast variant_destructive) (calls w')
         = S (count (is_toast variant_destructive) (calls w)) /\
       (status w', result w', statusMessage w', isScanning w')
         = (status w, result w, statusMessage w, isScanning w).
Proof.
  intros Hres. destruct_world w. cbn [result] in Hres. subst res.
  split; [reflexivity|].
  intros w' H. cbn in H. injection H as <-.
  unfold count. cbn [calls with_calls status result statusMessage isScanning].
  rewrite !filter_app, !length_app. cbn. repeat split; lia.
Qed.

Lemma submit_empty_warns_only_witness :
  step ASubmit scanning0 =
    Some (with_calls
            (calls scanning0 ++
             [EvToast "No Result" "Please scan a QR code first"
                      variant_destructive]) scanning0).
Proof. apply (submit_empty_warns_only scanning0). reflexivity. Defined.

(** C8, as the code has it.  When [result] is a non-empty string X, Manual
    Submit makes exactly three calls, in this order: console.log with the
    label 'QR Code Result:' and X, a default-variant notification
    "Result Submitted" whose description is "Logged to console: X", and the
    blocking alert whose text is "QR Code Result: X".  The state is
    unchanged. *)
Theorem submit_nonempty_labels_result (w : World) (X : string) :
  result w = X -> X <> "" ->
  step ASubmit w =
    Some (with_calls
            (calls w ++
             [EvConsoleLog ["QR Code Result:"; X];
              EvToast "Result Submitted" ("Logged to console: " ++ X)%string
                      variant_default;
              EvAlert ("QR Code Result: " ++ X)%string]) w).
Proof.
  intros Hres Hne. destruct_world w. cbn [result] in Hres. subst res.
  destruct X as [|a X]; [congruence|].
  cbn [step result]. unfold handleSubmit. cbn [truthy_string].
  unfold_scanner. flatten_log. reflexivity.
Qed.

Lemma submit_nonempty_labels_result_witness :
  step ASubmit (with_result "X" scanning0) =
    Some (with_calls
            (calls scanning0 ++
             [EvConsoleLog ["QR Code Result:"; "X"];
              EvToast "Result Submitted" "Logged to console: X" variant_default;
              EvAlert "QR Code Result: X"]) (with_result "X" scanning0)).
Proof.
  apply (submit_nonempty_labels_result (with_result "X" scanning0) "X");
    [reflexivity | discriminate].
Defined.

(** C8 as stated fails: with [result] = "X" the acknowledgment shown is
    "QR Code Result: X", and no call carries the bare "X" alone. *)
Lemma submit_alert_is_prefixed :
  let w := with_result "X" scanning0 in
  let w' := exec (handleSubmit (result w)) w in
  In (EvAlert "QR Code Result: X") (calls w') /\
  ~ In (EvAlert "X") (calls w') /\
  ~ In (EvConsoleLog ["X"]) (calls w').
Proof.
  cbv zeta. split; [|split].
  - vm_compute. intuition.
  - vm_compute. intuition discriminate.
  - vm_compute. intuition discriminate.
Qed.

(** ** One invocation of scanQRCode *)

(** C5. An invocation of [scanQRCode] that decodes a code (refs set,
    [isScanning] captured true, frame ready, jsQR positive) stores the
    result, moves to [detected], notifies and then still requests the next
    animation frame for the same callback: the request is the last call of
    the tick, it is queued by the platform and its handle is kept in
    [animationFrameRef]. *)
Theorem detection_still_reschedules
    (self : Closure) (env : FrameEnv) (qr : QRCode) (w : World) :
  videoRef w <> None -> canvasRef w <> None ->
  cap_isScanning self = true -> ready env = true -> code env = Some qr ->
  let w' := exec (scanQRCode self env) w in
  let h := N.succ (raf_counter w) in
  calls w' =
    calls w ++
    [EvSetResult (data qr); EvSetStatus detected;
     EvSetStatusMessage "QR code detected and decoded!";
     EvToast "QR Code Found!" "Successfully decoded QR code" variant_default;
     EvRequestAnimationFrame h self] /\
  pending w' = pending w ++ [(h, self)] /\
  animationFrameRef w' = Some h /\
  h <> 0%N /\
  status w' = detected /\ isScanning w' = isScanning w.
Proof.
  intros Hv Hc Hs Hr Hq.
  destruct_world w. destruct v; [|cbn in Hv; congruence].
  destruct c; [|cbn in Hc; congruence].
  unfold_scanner. rewrite Hs, Hr, Hq. cbn. flatten_log.
  repeat split. apply N.neq_succ_0.
Qed.

Lemma detection_still_reschedules_witness :
  let w' := exec (scanQRCode (closure_of scanning0) (hit "HELLO")) scanning0 in
  calls w' =
    calls scanning0 ++
    [EvSetResult "HELLO"; EvSetStatus detected;
     EvSetStatusMessage "QR code detected and decoded!";
     EvToast "QR Code Found!" "Successfully decoded QR code" variant_default;
     EvRequestAnimationFrame 1 (closure_of scanning0)] /\
  pending w' = [(1%N, closure_of scanning0)].
Proof.
  destruct (detection_still_reschedules (closure_of scanning0) (hit "HELLO")
              {| data := "HELLO" |} scanning0) as (H1 & H2 & _);
    try reflexivity; try discriminate.
  split; [exact H1 | exact H2].
Defined.

(** The state after one invocation, by cases on what it attempted. *)
Lemma scanQRCode_state (self : Closure) (env : FrameEnv) (w : World) :
  let w' := exec (scanQRCode self env) w in
  (status w', result w') =
    (if reaches_jsQR self env w then
       match code env with
       | Some qr => (detected, data qr)
       | None =>
           (if ScannerStatus_eqb (cap_status self) scanning
            then status w else scanning, result w)
       end
     else (status w, result w)) /\
  isScanning w' = isScanning w /\
  videoRef w' = videoRef w /\
  rendered w' = rendered w.
Proof.
  destruct_world w. destruct self as [cs cst].
  unfold reaches_jsQR. unfold_scanner. cbn.
  destruct v, c, cs; cbn; try (repeat split; fail).
  destruct (ready env); cbn; [|repeat split].
  destruct (code env); cbn; [repeat split|].
  destruct cst; cbn; repeat split.
Qed.

Lemma cancelPendingFrame_state (w : World) :
  let w' := exec cancelPendingFrame w in
  status w' = status w /\ result w' = result w /\
  isScanning w' = isScanning w /\ videoRef w' = videoRef w /\
  canvasRef w' = canvasRef w /\ rendered w' = rendered w /\
  animationFrameRef w' = animationFrameRef w /\
  raf_counter w' = raf_counter w.
Proof.
  destruct_world w. unfold_scanner. cbn.
  destruct ref as [h|]; cbn; [|repeat split].
  destruct (N.eqb h 0); cbn; repeat split.
Qed.

Lemma handleSubmit_state (r : string) (w : World) :
  exists extra,
    exec (handleSubmit r) w = with_calls (calls w ++ extra) w /\
    forallb (fun c => is_toast variant_default c || is_toast variant_destructive c
                      || is_log_or_alert c) extra = true.
Proof.
  destruct_world w. unfold handleSubmit.
  destruct (truthy_string r); unfold_scanner; flatten_log;
    eexists; split; reflexivity.
Qed.

(** State after a step, in terms of the attempt it made. *)
Lemma step_state (a : Action) (w w' : World) :
  step a w = Some w' ->
  (status w', result w') =
    match callback_of a w, decode_of a w with
    | Some (cb, _), Some (Some qr) => (detected, data qr)
    | Some (cb, _), Some None =>
        (if ScannerStatus_eqb (cap_status cb) scanning
         then status w else scanning, result w)
    | _, _ => (status w, result w)
    end /\
  isScanning w' = isScanning w /\
  videoRef w' = videoRef w.
Proof.
  destruct a as [env|env|]; cbn [step]; unfold decode_of, callback_of.
  - destruct (pending w) as [|[h cb] rest] eqn:Hq; [discriminate|].
    intros H; injection H as <-.
    pose proof (scanQRCode_state cb env (with_queue (raf_counter w) rest w)) as HS.
    cbv zeta in HS. destruct HS as (HS & Hi & Hv & _).
    assert (Hr : reaches_jsQR cb env (with_queue (raf_counter w) rest w)
                 = reaches_jsQR cb env w) by reflexivity.
    rewrite Hr in HS. rewrite HS, Hi, Hv.
    destruct (reaches_jsQR cb env w); [|repeat split].
    destruct (code env); repeat split.
  - destruct (Closure_eqb (rendered w) (closure_of w)); [discriminate|].
    intros H; injection H as <-.
    destruct (cancelPendingFrame_state w) as (C1 & C2 & C3 & C4 & C5 & _).
    cbv zeta in *.
    set (w1 := with_rendered (closure_of w) (exec cancelPendingFrame w)).
    assert (E : exec (scanEffectCleanup ;; modify (with_rendered (closure_of w)) ;;
                      scanEffect (closure_of w) env) w
                = exec (scanEffect (closure_of w) env) w1).
    { unfold w1, exec, bind, scanEffectCleanup, modify.
      destruct (cancelPendingFrame w) as [u w2]. reflexivity. }
    rewrite E.
    assert (F : status w1 = status w /\ result w1 = result w /\
                isScanning w1 = isScanning w /\ videoRef w1 = videoRef w /\
                canvasRef w1 = canvasRef w).
    { unfold w1. cbn. rewrite C1, C2, C3, C4, C5. repeat split. }
    destruct F as (F1 & F2 & F3 & F4 & F5).
    assert (Hr : reaches_jsQR (closure_of w) env w1
                 = reaches_jsQR (closure_of w) env w).
    { unfold reaches_jsQR. rewrite F4, F5. reflexivity. }
    unfold scanEffect, when.
    destruct (cap_isScanning (closure_of w)) eqn:Hcs.
    + pose proof (scanQRCode_state (closure_of w) env w1) as HS.
      cbv zeta in HS. destruct HS as (HS & Hi & Hv & _).
      rewrite Hr in HS. rewrite HS, Hi, Hv, F1, F2, F3, F4.
      destruct (reaches_jsQR (closure_of w) env w); [|repeat split].
      destruct (code env); repeat split.
    + assert (Hn : reaches_jsQR (closure_of w) env w = false).
      { unfold reaches_jsQR. rewrite Hcs.
        destruct (videoRef w), (canvasRef w); reflexivity. }
      rewrite Hn. unfold exec, ret. cbn [snd].
      rewrite F1, F2, F3, F4. repeat split.
  - intros H; injection H as <-.
    destruct (handleSubmit_state (result w) w) as (extra & -> & _).
    repeat split.
Qed.

(** Case analysis on everything one invocation of [scanQRCode] reads. *)
Ltac scan_cases w self env :=
  let cs := fresh "cs" in let cst := fresh "cst" in
  let st := fresh "st" in let res := fresh "res" in let msg := fresh "msg" in
  let sc := fresh "sc" in let v := fresh "v" in let c := fresh "c" in
  let ref := fresh "ref" in let rd := fresh "rd" in let ctr := fresh "ctr" in
  let q := fresh "q" in let log := fresh "log" in
  destruct self as [cs cst];
  destruct w as [st res msg sc v c ref rd ctr q log];
  destruct v, c, cs;
  unfold closure_of, reaches_jsQR; unfold_scanner; cbn;
  destruct (ready env) eqn:?; cbn;
  destruct (code env) eqn:?; cbn;
  destruct cst; cbn.

(** What a step does to the queue of callbacks. *)
Lemma step_queue (a : Action) (w w' : World) :
  step a w = Some w' ->
  forall e, In e (pending w') ->
    In e (pending w) \/
    exists env, callback_of a w = Some (snd e, env).
Proof.
  destruct a as [env|env|]; cbn [step]; unfold callback_of.
  - destruct (pending w) as [|[h cb] rest] eqn:Hq; [discriminate|].
    intros H; injection H as <-. revert Hq.
    scan_cases w cb env; intros -> e; rewrite ?in_app_iff; cbn;
      intuition eauto; subst; cbn; eauto.
  - destruct (Closure_eqb (rendered w) (closure_of w)); [discriminate|].
    intros H; injection H as <-.
    destruct_world w. destruct ref as [h|]; [destruct (N.eqb h 0) eqn:?|];
      destruct v, c, sc; unfold closure_of, reaches_jsQR; unfold_scanner; cbn;
      try rewrite Heqb; cbn;
      destruct (ready env) eqn:?; cbn;
      destruct (code env) eqn:?; cbn;
      destruct st; cbn;
      intros e; rewrite ?in_app_iff, ?filter_In; cbn;
      intuition eauto; subst; cbn; eauto.
  - intros H; injection H as <-.
    destruct (handleSubmit_state (result w) w) as (extra & -> & _).
    cbn. auto.
Qed.

(** Case analysis on everything a commit reads. *)
Ltac commit_cases w env :=
  let st := fresh "st" in let res := fresh "res" in let msg := fresh "msg" in
  let sc := fresh "sc" in let v := fresh "v" in let c := fresh "c" in
  let ref := fresh "ref" in let rd := fresh "rd" in let ctr := fresh "ctr" in
  let q := fresh "q" in let log := fresh "log" in
  let h := fresh "h" in let E := fresh "E" in
  destruct w as [st res msg sc v c ref rd ctr q log];
  (destruct ref as [h|]; [destruct (N.eqb h 0) eqn:E|]);
  destruct v, c, sc;
  unfold closure_of, reaches_jsQR; unfold_scanner; cbn;
  try (rewrite E; cbn);
  destruct (ready env) eqn:?; cbn;
  destruct (code env) eqn:?; cbn;
  destruct st; cbn.

(** What a step adds to the notifications of default variant. *)
Lemma step_default_toasts (a : Action) (w w' : World) :
  step a w = Some w' ->
  filter (is_toast variant_default) (calls w') =
    filter (is_toast variant_default) (calls w) ++
    match a with
    | ASubmit =>
        if truthy_string (result w)
        then [EvToast "Result Submitted" ("Logged to console: " ++ result w)%string
                      variant_default]
        else []
    | _ =>
        match decode_of a w with
        | Some (Some _) => [detect_toast]
        | _ => []
        end
    end.
Proof.
  destruct a as [env|env|]; cbn [step]; unfold decode_of, callback_of.
  - destruct (pending w) as [|[h cb] rest] eqn:Hq; [discriminate|].
    intros H; injection H as <-. revert Hq.
    scan_cases w cb env; intros _; rewrite ?filter_app; cbn;
      rewrite ?app_nil_r, <- ?app_assoc; reflexivity.
  - destruct (Closure_eqb (rendered w) (closure_of w)); [discriminate|].
    intros H; injection H as <-.
    commit_cases w env; rewrite ?filter_app; cbn;
      rewrite ?app_nil_r, <- ?app_assoc; reflexivity.
  - intros H; injection H as <-.
    destruct_world w. cbn [result]. unfold handleSubmit.
    destruct (truthy_string res); unfold_scanner; rewrite ?filter_app; cbn;
      rewrite ?app_nil_r, <- ?app_assoc; reflexivity.
Qed.

(** ** Leaving [detected] *)

(** C1, as the code has it.  From [detected], a step leaves the status
    [detected] or sets it to [scanning], and it sets [scanning] exactly
    when the [scanQRCode] it runs makes a decode attempt that misses and
    captured a status other than [scanning]; the [scanQRCode] of a commit
    captured [detected], so every commit whose decode attempt misses resets
    the status to [scanning]. *)
Theorem detected_left_only_by_miss (a : Action) (w w' : World) :
  status w = detected -> step a w = Some w' ->
  (status w' = detected \/ status w' = scanning) /\
  (status w' = scanning <->
     exists cb env, callback_of a w = Some (cb, env) /\
                    decode_of a w = Some None /\ cap_status cb <> scanning) /\
  (forall env, a = ACommit env -> decode_of a w = Some None ->
               status w' = scanning).
Proof.
  intros Hd Hstep.
  destruct (step_state a w w' Hstep) as (HS & _).
  assert (Hc : forall env, a = ACommit env ->
                 callback_of a w = Some (closure_of w, env))
    by (intros env ->; reflexivity).
  assert (Hdc : callback_of a w = None -> decode_of a w = None)
    by (unfold decode_of; intros ->; reflexivity).
  destruct (callback_of a w) as [[cb env]|] eqn:Hcb;
    [destruct (decode_of a w) as [[qr|]|] eqn:Hdec|rewrite (Hdc eq_refl)];
    injection HS as Hst _; rewrite Hst, ?Hd.
  2: destruct (ScannerStatus_eqb (cap_status cb) scanning) eqn:He.
  all: repeat split; auto; try discriminate;
    try (intros (cb' & env' & E & E' & Hne); try discriminate;
         injection E as <- <-).
  - apply ScannerStatus_eqb_eq in He. contradiction.
  - intros env' Ha _. specialize (Hc env' Ha). injection Hc as -> ->.
    cbn in He. rewrite Hd in He. discriminate.
  - intros _. exists cb, env. repeat split; auto.
    intros E. rewrite E in He. discriminate.
Qed.

Lemma detected_left_only_by_miss_witness :
  status detected0 = detected /\
  exists w', step (ACommit miss) detected0 = Some w' /\ status w' = scanning.
Proof.
  split; [reflexivity|].
  eexists. split; [reflexivity|].
  destruct (detected_left_only_by_miss (ACommit miss) detected0 _
              eq_refl eq_refl) as (_ & _ & H).
  apply (H miss); reflexivity.
Defined.

(** C1 as stated fails: a session detects "HELLO" and the next tick, whose
    decode attempt misses, puts the status back to [scanning]. *)
Lemma detected_reverts_on_miss :
  option_map status (run [ACommit (hit "HELLO")] scanning0) = Some detected /\
  option_map status (run [ACommit (hit "HELLO"); ACommit miss] scanning0)
    = Some scanning /\
  option_map status
    (run [ACommit (hit "HELLO"); ACommit (hit "HELLO"); AFrame miss] scanning0)
    = Some scanning.
Proof. repeat split. Qed.

(** ** Overwriting the result *)

(** C2, as the code has it.  A step assigns [result] exactly when the
    [scanQRCode] it runs decodes a code, and then to that code's payload,
    whatever [result] held before; every other step keeps [result]. *)
Theorem result_is_latest_payload (a : Action) (w w' : World) :
  step a w = Some w' ->
  result w' = match decode_of a w with
              | Some (Some qr) => data qr
              | _ => result w
              end.
Proof.
  intros Hstep.
  destruct (step_state a w w' Hstep) as (HS & _).
  unfold decode_of in *.
  destruct (callback_of a w) as [[cb env]|];
    [destruct (reaches_jsQR cb env w); [destruct (code env)|]|];
    injection HS as _ Hres; exact Hres.
Qed.

Lemma result_is_latest_payload_witness :
  result detected0 = "HELLO" /\
  exists w', step (ACommit (hit "WORLD")) detected0 = Some w' /\
             result w' = "WORLD".
Proof.
  split; [reflexivity|].
  eexists. split; [reflexivity|].
  rewrite (result_is_latest_payload (ACommit (hit "WORLD")) detected0 _ eq_refl).
  reflexivity.
Defined.

(** C2 as stated fails: the second successful decode of a session replaces
    the payload the first one stored. *)
Lemma second_decode_overwrites :
  option_map result (run [ACommit (hit "HELLO")] scanning0) = Some "HELLO" /\
  option_map result (run [ACommit (hit "HELLO"); ACommit (hit "WORLD")] scanning0)
    = Some "WORLD".
Proof. repeat split. Qed.

(** ** Sessions that only miss *)

Lemma undetected_callback (a : Action) (w : World) (cb : Closure) (env : FrameEnv) :
  undetected w -> callback_of a w = Some (cb, env) -> cap_status cb = scanning.
Proof.
  intros (Hst & _ & Hq). destruct a as [env'|env'|]; unfold callback_of.
  - destruct (pending w) as [|[h cb0] rest] eqn:E; [discriminate|].
    intros H; injection H as <- <-. apply (Hq (h, cb0)). now left.
  - intros H; injection H as <- <-. exact Hst.
  - discriminate.
Qed.

Lemma undetected_step (a : Action) (w w' : World) :
  undetected w -> missed a w = true -> step a w = Some w' -> undetected w'.
Proof.
  intros Hu Hm Hstep.
  pose proof (undetected_callback a w) as Hcb.
  destruct Hu as (Hst & Hres & Hq).
  destruct (step_state a w w' Hstep) as (HS & _).
  pose proof (step_queue a w w' Hstep) as HQ.
  unfold missed in Hm.
  assert (Hstate : status w' = scanning /\ result w' = "").
  { destruct (callback_of a w) as [[cb env]|] eqn:E.
    - destruct (decode_of a w) as [[qr|]|]; try discriminate;
        injection HS as -> ->;
        rewrite ?(Hcb cb env (conj Hst (conj Hres Hq)) eq_refl); cbn; auto.
    - injection HS as -> ->. auto. }
  destruct Hstate as (Hst' & Hres').
  repeat split; auto.
  intros e He. destruct (HQ e He) as [Hin|(env & E)]; [auto|].
  exact (Hcb _ _ (conj Hst (conj Hres Hq)) E).
Qed.

(** Over a run of misses from an undetected state no default-variant
    notification is added. *)
Lemma undetected_run_toasts (acts : list Action) (w w' : World) :
  undetected w -> all_missed acts w = true -> run acts w = Some w' ->
  filter (is_toast variant_default) (calls w')
    = filter (is_toast variant_default) (calls w).
Proof.
  revert w. induction acts as [|a acts IH]; intros w Hq Hm Hrun.
  - injection Hrun as <-. reflexivity.
  - cbn in Hm, Hrun. apply andb_prop in Hm. destruct Hm as (Hm1 & Hm2).
    destruct (step a w) as [w1|] eqn:Hstep; [|discriminate].
    rewrite (IH w1); auto; [|apply (undetected_step a w w1); auto].
    rewrite (step_default_toasts a w w1 Hstep).
    unfold missed in Hm1. destruct Hq as (_ & Hres & _).
    destruct a; cbn [app].
    + destruct (decode_of (AFrame env) w) as [[qr|]|]; try discriminate;
        apply app_nil_r.
    + destruct (decode_of (ACommit env) w) as [[qr|]|]; try discriminate;
        apply app_nil_r.
    + rewrite Hres. apply app_nil_r.
Qed.

(** A step whose decode attempt does not return a payload keeps status
    [scanning] and the empty result: on a miss the callback either leaves
    the status or sets it to [scanning], whatever status it captured. *)
Lemma miss_keeps_scanning (a : Action) (w w' : World) :
  status w = scanning -> result w = "" ->
  missed a w = true -> step a w = Some w' ->
  status w' = scanning /\ result w' = "".
Proof.
  intros Hst Hres Hm Hstep.
  destruct (step_state a w w' Hstep) as (HS & _).
  unfold missed in Hm.
  destruct (callback_of a w) as [[cb env]|];
    [destruct (decode_of a w) as [[qr|]|]; try discriminate|];
    injection HS as -> ->; split; auto.
  destruct (ScannerStatus_eqb (cap_status cb) scanning); auto.
Qed.

(** C4. From every state with status [scanning] and empty result, a run
    in which every decode attempt returns a miss ends in a state with
    status [scanning] and empty result; every prefix of such a run is one,
    so this holds after every tick. *)
Theorem misses_keep_scanning (acts : list Action) (w w' : World) :
  status w = scanning -> result w = "" ->
  all_missed acts w = true ->
  run acts w = Some w' ->
  status w' = scanning /\ result w' = "".
Proof.
  revert w. induction acts as [|a acts IH]; intros w Hst Hres Hm Hrun.
  - injection Hrun as <-. split; assumption.
  - cbn in Hm, Hrun. apply andb_prop in Hm. destruct Hm as (Hm1 & Hm2).
    destruct (step a w) as [w1|] eqn:Hstep; [|discriminate].
    destruct (miss_keeps_scanning a w w1 Hst Hres Hm1 Hstep) as (Hst1 & Hres1).
    apply (IH w1); assumption.
Qed.

Lemma misses_keep_scanning_witness :
  status stale0 = scanning /\ result stale0 = "" /\
  (exists e, In e (pending stale0) /\ cap_status (snd e) = detected) /\
  run five_misses scanning0 = Some after_misses /\
  status after_misses = scanning /\ result after_misses = "" /\
  run [AFrame miss; AFrame miss] stale0 = Some stale1 /\
  status stale1 = scanning /\ result stale1 = "".
Proof.
  split; [reflexivity|]. split; [reflexivity|].
  split; [eexists; split; [left; reflexivity | reflexivity]|].
  split; [vm_compute; reflexivity|].
  destruct (misses_keep_scanning five_misses scanning0 after_misses)
    as (H1 & H2); try (vm_compute; reflexivity).
  split; [exact H1|]. split; [exact H2|].
  split; [vm_compute; reflexivity|].
  apply (misses_keep_scanning [AFrame miss; AFrame miss] stale0 stale1);
    vm_compute; reflexivity.
Defined.

(** C3. In a session whose acquisition succeeded with the video surface
    present, the first step whose decode attempt returns a payload (every
    earlier attempt having missed) ends with status [detected] and [result]
    equal to that payload, and the notification "QR Code Found!" it raises
    is the only default-variant notification of the session so far. *)
Theorem first_decode_detects
    (v : Video) (c : option Canvas) (s : MediaStream)
    (acts : list Action) (a : Action) (w w' : World) (qr : QRCode) :
  run acts (mount (Some v) c (Granted s)) = Some w ->
  all_missed acts (mount (Some v) c (Granted s)) = true ->
  decode_of a w = Some (Some qr) ->
  step a w = Some w' ->
  status w' = detected /\ result w' = data qr /\
  filter (is_toast variant_default) (calls w) = [] /\
  filter (is_toast variant_default) (calls w') = [detect_toast].
Proof.
  intros Hrun Hm Hdec Hstep.
  assert (H0 : undetected (mount (Some v) c (Granted s))).
  { repeat split. intros e []. }
  pose proof (undetected_run_toasts acts _ w H0 Hm Hrun) as Ht.
  change (filter (is_toast variant_default)
            (calls (mount (Some v) c (Granted s)))) with (@nil Call) in Ht.
  destruct (step_state a w w' Hstep) as (HS & _).
  pose proof (step_default_toasts a w w' Hstep) as HT.
  rewrite Hdec in HS.
  assert (Hcb : exists cb env, callback_of a w = Some (cb, env)).
  { unfold decode_of in Hdec. destruct (callback_of a w) as [[cb env]|];
      [eauto|discriminate]. }
  destruct Hcb as (cb & env & Hcb). rewrite Hcb in HS.
  injection HS as -> ->.
  repeat split; auto.
  rewrite HT, Ht. destruct a; try rewrite Hdec; try reflexivity.
  unfold decode_of in Hdec. cbn in Hdec. discriminate.
Qed.

Lemma first_decode_detects_witness :
  run five_misses scanning0 = Some after_misses /\
  step (AFrame (hit "HELLO")) after_misses = Some after_hello /\
  status after_hello = detected /\ result after_hello = "HELLO" /\
  filter (is_toast variant_default) (calls after_hello) = [detect_toast].
Proof.
  split; [vm_compute; reflexivity|]. split; [vm_compute; reflexivity|].
  destruct (first_decode_detects video0 (Some canvas0) camera five_misses
              (AFrame (hit "HELLO")) after_misses after_hello
              {| data := "HELLO" |}) as (H1 & H2 & _ & H4);
    try (vm_compute; reflexivity).
  repeat split; assumption.
Defined.

(** ** Sessions that never scan *)

(** While [isScanning] is false and no callback is queued, a step changes
    neither the status nor the refs, queues nothing, and adds no camera
    request, no camera-error notification and no track stop to the log. *)
Lemma idle_step (a : Action) (w w' : World) :
  isScanning w = false -> pending w = [] -> step a w = Some w' ->
  isScanning w' = false /\ pending w' = [] /\
  status w' = status w /\ result w' = result w /\ videoRef w' = videoRef w /\
  count is_getUserMedia (calls w') = count is_getUserMedia (calls w) /\
  count is_camera_error (calls w') = count is_camera_error (calls w) /\
  count is_track_stop (calls w') = count is_track_stop (calls w).
Proof.
  intros Hs Hq. destruct a as [env|env|]; cbn [step].
  - rewrite Hq. discriminate.
  - destruct (Closure_eqb (rendered w) (closure_of w)); [discriminate|].
    intros H; injection H as <-. revert Hs Hq.
    destruct_world w. cbn [isScanning pending]. intros -> ->.
    unfold closure_of. unfold_scanner. cbn.
    destruct ref as [h|]; cbn; [destruct (N.eqb h 0); cbn|];
      unfold count; rewrite ?filter_app, ?length_app; cbn;
      repeat split; lia.
  - intros H; injection H as <-. revert Hs Hq.
    destruct_world w. cbn [isScanning pending result]. intros -> ->.
    unfold handleSubmit. destruct (truthy_string res); unfold_scanner; cbn;
      unfold count; rewrite ?filter_app, ?length_app; cbn;
      repeat split; lia.
Qed.

Lemma idle_run (acts : list Action) (w w' : World) :
  isScanning w = false -> pending w = [] -> run acts w = Some w' ->
  isScanning w' = false /\ pending w' = [] /\
  status w' = status w /\ result w' = result w /\ videoRef w' = videoRef w /\
  count is_getUserMedia (calls w') = count is_getUserMedia (calls w) /\
  count is_camera_error (calls w') = count is_camera_error (calls w) /\
  count is_track_stop (calls w') = count is_track_stop (calls w).
Proof.
  revert w. induction acts as [|a acts IH]; intros w Hs Hq Hrun.
  - injection Hrun as <-. repeat split; assumption.
  - cbn in Hrun. destruct (step a w) as [w1|] eqn:Hstep; [|discriminate].
    destruct (idle_step a w w1 Hs Hq Hstep)
      as (I1 & I2 & I3 & I4 & I5 & I6 & I7 & I8).
    destruct (IH w1 I1 I2 Hrun) as (J1 & J2 & J3 & J4 & J5 & J6 & J7 & J8).
    repeat split; congruence.
Qed.

(** ** Acquisition failure *)

(** C6. When the acquisition fails (request rejected, or platform API
    absent), mounting raises exactly one notification, the destructive
    "Camera Error" one; the status is [no_camera] and [isScanning] is false
    after mounting and after every later run of the session; nothing is
    ever queued for a frame; and the session makes at most one camera
    request, none being added after the failure. *)
Theorem acquisition_failure_is_terminal
    (v : option Video) (c : option Canvas) (o : Acquisition)
    (acts : list Action) (w : World) :
  failed o = true ->
  run acts (mount v c o) = Some w ->
  filter is_any_toast (calls (mount v c o)) =
    [EvToast "Camera Error" "Unable to access camera. Please check permissions."
             variant_destructive] /\
  status w = no_camera /\ isScanning w = false /\ pending w = [] /\
  count is_camera_error (calls w) = 1%nat /\
  count is_getUserMedia (calls w) = count is_getUserMedia (calls (mount v c o)) /\
  (count is_getUserMedia (calls w) <= 1)%nat.
Proof.
  intros Hf Hrun.
  assert (H0 : isScanning (mount v c o) = false /\ pending (mount v c o) = [] /\
               status (mount v c o) = no_camera /\
               count is_camera_error (calls (mount v c o)) = 1%nat /\
               (count is_getUserMedia (calls (mount v c o)) <= 1)%nat /\
               filter is_any_toast (calls (mount v c o)) =
                 [EvToast "Camera Error"
                    "Unable to access camera. Please check permissions."
                    variant_destructive]).
  { destruct o as [s|e|]; [discriminate| |]; cbn; repeat split; lia. }
  destruct H0 as (A1 & A2 & A3 & A4 & A5 & A6).
  destruct (idle_run acts _ w A1 A2 Hrun)
    as (I1 & I2 & I3 & _ & _ & I6 & I7 & _).
  repeat split; try congruence; try (rewrite I6; exact A5).
Qed.

Lemma acquisition_failure_is_terminal_witness :
  run [ASubmit; ACommit miss] denied0 = Some denied1 /\
  status denied1 = no_camera /\ isScanning denied1 = false /\
  count is_getUserMedia (calls denied1) = 1%nat.
Proof.
  split; [vm_compute; reflexivity|].
  destruct (acquisition_failure_is_terminal (Some video0) (Some canvas0)
              (Rejected NotAllowedError) [ASubmit; ACommit miss] denied1)
    as (_ & H1 & H2 & _ & _ & H3 & _);
    try (vm_compute; reflexivity).
  repeat split; assumption.
Defined.

(** ** Unmount *)

Lemma stopTracks_exec (ts : list Track) (w : World) :
  exec (stopTracks ts) w = with_calls (calls w ++ map EvTrackStop ts) w.
Proof.
  revert w. induction ts as [|t ts IH]; intros w.
  - destruct_world w. unfold_scanner. cbn. rewrite app_nil_r. reflexivity.
  - specialize (IH (with_calls (calls w ++ [EvTrackStop t]) w)).
    cbn [stopTracks map]. unfold exec, bind, call, modify in *.
    cbn [snd fst] in *. rewrite IH.
    destruct_world w. cbn. rewrite <- app_assoc. reflexivity.
Qed.

Lemma exec_seq {A} (m : M A) (k : M unit) (w : World) :
  exec (m ;; k) w = exec k (exec m w).
Proof. unfold exec, bind. destruct (m w). reflexivity. Qed.

Lemma cancelPendingFrame_exec (w : World) :
  exec cancelPendingFrame w =
    match truthy_handle (animationFrameRef w) with
    | Some h =>
        with_queue (raf_counter w)
          (filter (fun e => negb (N.eqb (fst e) h)) (pending w))
          (with_calls (calls w ++ [EvCancelAnimationFrame h]) w)
    | None => w
    end.
Proof.
  unfold cancelPendingFrame, exec, bind, get. cbn [fst snd].
  destruct (truthy_handle (animationFrameRef w)); reflexivity.
Qed.

Lemma mountEffectCleanup_exec (w : World) :
  exec mountEffectCleanup w =
    let w1 := exec cancelPendingFrame w in
    with_calls (calls w1 ++ map EvTrackStop (attached_tracks w1)) w1.
Proof.
  unfold mountEffectCleanup. rewrite exec_seq. cbv zeta.
  generalize (exec cancelPendingFrame w). intros w1.
  unfold attached_tracks, exec, bind, get. cbn [fst snd].
  destruct (videoRef w1) as [[[s|]]|] eqn:E.
  - apply stopTracks_exec.
  - cbn. rewrite app_nil_r. destruct w1; reflexivity.
  - cbn. rewrite app_nil_r. destruct w1; reflexivity.
Qed.

Lemma filter_twice (h : N) (l : list (N * Closure)) :
  filter (fun e => negb (N.eqb (fst e) h))
    (filter (fun e => negb (N.eqb (fst e) h)) l)
  = filter (fun e => negb (N.eqb (fst e) h)) l.
Proof.
  induction l as [|e l IH]; cbn; [reflexivity|].
  destruct (negb (N.eqb (fst e) h)) eqn:E; cbn; rewrite ?E, IH; reflexivity.
Qed.

(** The whole effect of unmounting: the refs being detached, the mount
    cleanup finds no stream, and all that is left are the two
    cancellations. *)
Lemma unmount_exec (w : World) :
  calls (exec unmount w) = calls w ++ cancel_calls w ++ cancel_calls w /\
  pending (exec unmount w) =
    match truthy_handle (animationFrameRef w) with
    | Some h => filter (fun e => negb (N.eqb (fst e) h)) (pending w)
    | None => pending w
    end /\
  status (exec unmount w) = status w /\
  result (exec unmount w) = result w /\
  isScanning (exec unmount w) = isScanning w /\
  videoRef (exec unmount w) = None.
Proof.
  unfold unmount, detachRefs. rewrite !exec_seq. unfold scanEffectCleanup.
  rewrite mountEffectCleanup_exec. cbv zeta.
  rewrite !cancelPendingFrame_exec. unfold cancel_calls, attached_tracks.
  destruct_world w. unfold exec, modify.
  cbn [snd animationFrameRef videoRef with_calls with_queue with_videoRef
       with_canvasRef calls pending raf_counter status result statusMessage
       isScanning canvasRef rendered].
  destruct (truthy_handle ref) as [h|] eqn:Hh;
    cbn [snd animationFrameRef videoRef with_calls with_queue with_videoRef
         with_canvasRef calls pending raf_counter status result statusMessage
         isScanning canvasRef rendered map];
    rewrite ?Hh;
    cbn [snd animationFrameRef videoRef with_calls with_queue with_videoRef
         with_canvasRef calls pending raf_counter status result statusMessage
         isScanning canvasRef rendered map];
    rewrite ?filter_twice, ?app_nil_r, <- ?app_assoc; cbn [app];
    repeat split.
Qed.

(** ** A stream that was never attached *)

(** C10. When the request succeeds while [videoRef] is null, mounting
    makes the camera request and nothing else (no notification, no state
    change).  Whatever element [later] (with no stream of its own) the ref
    holds afterwards, throughout the session no stream is attached to it,
    [isScanning] stays false, the status stays [initializing], and the
    unmount cleanup stops no track: the acquired stream's tracks are left
    running. *)
Theorem unattached_stream_is_never_stopped
    (c : option Canvas) (s : MediaStream) (later : option Video)
    (acts : list Action) (w : World) :
  (forall v, later = Some v -> srcObject v = None) ->
  run acts (with_videoRef later (mount None c (Granted s))) = Some w ->
  calls (mount None c (Granted s)) = [EvGetUserMedia "environment" 640 480] /\
  (status (mount None c (Granted s)), isScanning (mount None c (Granted s)))
    = (initializing, false) /\
  videoRef w = later /\ attached_tracks w = [] /\
  isScanning w = false /\ status w = initializing /\
  count is_track_stop (calls (exec unmount w)) = 0%nat /\
  (forall t, In t (getTracks s) ->
             ~ In (EvTrackStop t) (calls (exec unmount w))).
Proof.
  intros Hlater Hrun.
  set (w0 := with_videoRef later (mount None c (Granted s))) in *.
  destruct (idle_run acts w0 w eq_refl eq_refl Hrun)
    as (I1 & I2 & I3 & _ & I5 & _ & _ & I8).
  assert (Hatt : attached_tracks w = []).
  { unfold attached_tracks. rewrite I5. cbn.
    destruct later as [[[s'|]]|]; try reflexivity.
    specialize (Hlater _ eq_refl). discriminate. }
  destruct (unmount_exec w) as (U1 & _).
  assert (Hcnt : count is_track_stop (calls (exec unmount w)) = 0%nat).
  { rewrite U1. unfold count in *.
    rewrite !filter_app, !length_app, I8. unfold cancel_calls.
    destruct (truthy_handle (animationFrameRef w)); reflexivity. }
  repeat split; auto.
  intros t _ Hin. unfold count in Hcnt.
  assert (Hf : In (EvTrackStop t)
                 (filter is_track_stop (calls (exec unmount w)))).
  { apply filter_In. split; [exact Hin | reflexivity]. }
  destruct (filter is_track_stop (calls (exec unmount w)));
    [exact Hf | discriminate].
Qed.

Lemma unattached_stream_is_never_stopped_witness :
  run [ASubmit] (with_videoRef (Some video0) unattached0) = Some unattached1 /\
  status unattached1 = initializing /\ isScanning unattached1 = false /\
  ~ In (EvTrackStop 7%nat) (calls (exec unmount unattached1)).
Proof.
  split; [vm_compute; reflexivity|].
  destruct (unattached_stream_is_never_stopped (Some canvas0) camera
              (Some video0) [ASubmit] unattached1)
    as (_ & _ & _ & _ & H1 & H2 & _ & H3).
  - intros v H. injection H as <-. reflexivity.
  - vm_compute; reflexivity.
  - repeat split; try assumption. apply H3. left. reflexivity.
Defined.

(** ** What the unmount cleanup releases *)

Lemma scanQRCode_outstanding (self : Closure) (env : FrameEnv) (w : World) :
  pending w = [] -> one_outstanding (exec (scanQRCode self env) w).
Proof.
  unfold one_outstanding.
  scan_cases w self env; intros ->; cbn;
    solve [ left; reflexivity
          | right; eexists; eexists; split; [reflexivity|];
            split; [reflexivity|]; apply N.neq_succ_0 ].
Qed.

Lemma cancelPendingFrame_outstanding (w : World) :
  one_outstanding w -> pending (exec cancelPendingFrame w) = [].
Proof.
  rewrite cancelPendingFrame_exec.
  intros [Hq|(h & cb & Hq & Hr & Hne)].
  - destruct (truthy_handle (animationFrameRef w)); cbn; rewrite ?Hq; reflexivity.
  - rewrite Hr. cbn. apply N.eqb_neq in Hne. rewrite Hne. cbn.
    rewrite Hq. cbn. rewrite N.eqb_refl. reflexivity.
Qed.

Lemma one_outstanding_step (a : Action) (w w' : World) :
  one_outstanding w -> step a w = Some w' -> one_outstanding w'.
Proof.
  intros Hinv. destruct a as [env|env|]; cbn [step].
  - destruct (pending w) as [|[h cb] rest] eqn:Hq; [discriminate|].
    intros H; injection H as <-.
    apply scanQRCode_outstanding.
    unfold one_outstanding in Hinv. rewrite Hq in Hinv.
    destruct Hinv as [E|(h' & cb' & E & _)]; [discriminate E|].
    cbn [pending with_queue]. congruence.
  - destruct (Closure_eqb (rendered w) (closure_of w)); [discriminate|].
    intros H; injection H as <-.
    rewrite !exec_seq. unfold scanEffectCleanup.
    pose proof (cancelPendingFrame_outstanding w Hinv) as Hc.
    set (w1 := exec (modify (with_rendered (closure_of w)))
                 (exec cancelPendingFrame w)).
    assert (Hq1 : pending w1 = []) by exact Hc.
    unfold scanEffect, when.
    destruct (cap_isScanning (closure_of w)).
    + apply scanQRCode_outstanding. exact Hq1.
    + left. exact Hq1.
  - intros H; injection H as <-.
    destruct (handleSubmit_state (result w) w) as (extra & -> & _).
    exact Hinv.
Qed.

Lemma session_one_outstanding
    (v : option Video) (c : option Canvas) (o : Acquisition)
    (acts : list Action) (w : World) :
  run acts (mount v c o) = Some w -> one_outstanding w.
Proof.
  assert (H0 : one_outstanding (mount v c o)).
  { left. destruct o as [s|e|]; [destruct v|..]; reflexivity. }
  revert H0. generalize (mount v c o). intros w0. revert w0.
  induction acts as [|a acts IH]; intros w0 H0 Hrun.
  - injection Hrun as <-. exact H0.
  - cbn in Hrun. destruct (step a w0) as [w1|] eqn:Hstep; [|discriminate].
    apply (IH w1); [|exact Hrun]. apply (one_outstanding_step a w0); assumption.
Qed.

(** X14. Unmounting a session, in whatever state it is, leaves no
    animation-frame request queued: no tick runs after unmount. *)
Lemma unmount_cancels_outstanding
    (v : option Video) (c : option Canvas) (o : Acquisition)
    (acts : list Action) (w : World) :
  run acts (mount v c o) = Some w -> pending (exec unmount w) = [].
Proof.
  intros Hrun. pose proof (session_one_outstanding v c o acts w Hrun) as Hinv.
  destruct (unmount_exec w) as (_ & -> & _).
  destruct Hinv as [Hq|(h & cb & Hq & Hr & Hne)].
  - destruct (truthy_handle (animationFrameRef w)); rewrite Hq; reflexivity.
  - rewrite Hr. cbn. apply N.eqb_neq in Hne. rewrite Hne, Hq. cbn.
    rewrite N.eqb_refl. reflexivity.
Qed.

(** Run while [videoRef] still holds the element, the cleanup of the
    mount effect stops every track of the attached stream. *)
Lemma mountEffectCleanup_stops_attached (w : World) (t : Track) :
  In t (attached_tracks w) ->
  In (EvTrackStop t) (calls (exec mountEffectCleanup w)).
Proof.
  intros Hin. rewrite mountEffectCleanup_exec. cbv zeta.
  assert (Hv : attached_tracks (exec cancelPendingFrame w) = attached_tracks w).
  { unfold attached_tracks.
    destruct (cancelPendingFrame_state w) as (_ & _ & _ & -> & _). reflexivity. }
  rewrite Hv. cbn [calls with_calls]. rewrite in_app_iff. right.
  apply in_map. exact Hin.
Qed.

(** C9 at its failing input.  The request succeeds while [videoRef] is
    null: the session holds the stream of track 7 and never attached it.
    Unmounting then makes no call at all, so track 7 is not stopped. *)
Lemma unmount_misses_unattached_stream :
  getTracks camera = [7%nat] /\
  calls unattached0 = [EvGetUserMedia "environment" 640 480] /\
  calls (exec unmount unattached0) = calls unattached0 /\
  ~ In (EvTrackStop 7%nat) (calls (exec unmount unattached0)).
Proof.
  repeat split. vm_compute. intuition discriminate.
Qed.

(** ** Invariants of every run *)

Lemma run_invariant (P : World -> Prop) :
  (forall a w w', P w -> step a w = Some w' -> P w') ->
  forall acts w w', P w -> run acts w = Some w' -> P w'.
Proof.
  intros Hstep acts. induction acts as [|a acts IH]; intros w w' HP Hrun.
  - injection Hrun as <-. exact HP.
  - cbn in Hrun. destruct (step a w) as [w1|] eqn:E; [|discriminate].
    apply (IH w1 w'); [|exact Hrun]. apply (Hstep a w); assumption.
Qed.

(** A step leaves the status as it is or sets it to [scanning] or
    [detected]. *)
Lemma step_status_cases (a : Action) (w w' : World) :
  step a w = Some w' ->
  status w' = status w \/ status w' = scanning \/ status w' = detected.
Proof.
  intros Hstep. destruct (step_state a w w' Hstep) as (HS & _).
  destruct (callback_of a w) as [[cb env]|];
    [destruct (decode_of a w) as [[qr|]|]|];
    injection HS as -> _; auto.
  destruct (ScannerStatus_eqb (cap_status cb) scanning); auto.
Qed.

(** The status and its message change together. *)
Lemma step_message (a : Action) (w w' : World) :
  message_of (status w) = Some (statusMessage w) ->
  step a w = Some w' ->
  message_of (status w') = Some (statusMessage w').
Proof.
  destruct a as [env|env|]; cbn [step].
  - destruct (pending w) as [|[h cb] rest] eqn:Hq; [discriminate|].
    intros Hm H; injection H as <-. revert Hq Hm.
    scan_cases w cb env; intros _ Hm; cbn in Hm; try exact Hm; reflexivity.
  - destruct (Closure_eqb (rendered w) (closure_of w)); [discriminate|].
    intros Hm H; injection H as <-. revert Hm.
    commit_cases w env; intros Hm; cbn in Hm; try exact Hm; reflexivity.
  - intros Hm H; injection H as <-.
    destruct (handleSubmit_state (result w) w) as (extra & -> & _).
    exact Hm.
Qed.

(** With the video surface present and the request granted, [isScanning]
    is true and the status is 'scanning' or 'detected' throughout. *)
Lemma scanning_session_status
    (v : Video) (c : option Canvas) (s : MediaStream)
    (acts : list Action) (w : World) :
  run acts (mount (Some v) c (Granted s)) = Some w ->
  isScanning w = true /\ (status w = scanning \/ status w = detected).
Proof.
  apply (run_invariant
           (fun u => isScanning u = true /\
                     (status u = scanning \/ status u = detected))).
  - intros a u u' (Hi & Hs) Hstep.
    destruct (step_state a u u' Hstep) as (_ & Hi' & _).
    split; [congruence|].
    destruct (step_status_cases a u u' Hstep) as [E|[E|E]];
      rewrite E; auto.
  - split; [reflexivity | left; reflexivity].
Qed.

(** X1. In every session the status 'error' is never reached;
    [isScanning] is true exactly when the acquisition succeeded with the
    video surface present, whatever happens afterwards (nothing ever resets
    it); and while it is true the status is 'scanning' or 'detected'. *)
Theorem session_status
    (v : option Video) (c : option Canvas) (o : Acquisition)
    (acts : list Action) (w : World) :
  run acts (mount v c o) = Some w ->
  status w <> error /\
  isScanning w = match o, v with
                 | Granted _, Some _ => true
                 | _, _ => false
                 end /\
  (isScanning w = true -> status w = scanning \/ status w = detected).
Proof.
  intros Hrun.
  destruct o as [s|e|]; [destruct v as [v|]|..].
  - destruct (scanning_session_status v c s acts w Hrun) as (Hi & Hs).
    repeat split; auto. destruct Hs as [E|E]; rewrite E; discriminate.
  - destruct (idle_run acts (mount None c (Granted s)) w eq_refl eq_refl Hrun)
      as (I1 & _ & I3 & _).
    rewrite I1, I3. cbn. repeat split; discriminate.
  - destruct (idle_run acts (mount v c (Rejected e)) w eq_refl eq_refl Hrun)
      as (I1 & _ & I3 & _).
    rewrite I1, I3. cbn. repeat split; discriminate.
  - destruct (idle_run acts (mount v c ApiAbsent) w eq_refl eq_refl Hrun)
      as (I1 & _ & I3 & _).
    rewrite I1, I3. cbn. repeat split; discriminate.
Qed.

Lemma session_status_witness :
  run five_misses scanning0 = Some after_misses /\
  status after_misses <> error /\ isScanning after_misses = true.
Proof.
  split; [vm_compute; reflexivity|].
  destruct (session_status (Some video0) (Some canvas0) (Granted camera)
              five_misses after_misses) as (H1 & H2 & _).
  - vm_compute; reflexivity.
  - split; assumption.
Defined.

(** X2. In every session the status message is the one paired with the
    current status: the two are only ever written together. *)
Theorem message_follows_status
    (v : option Video) (c : option Canvas) (o : Acquisition)
    (acts : list Action) (w : World) :
  run acts (mount v c o) = Some w ->
  message_of (status w) = Some (statusMessage w).
Proof.
  apply (run_invariant
           (fun u => message_of (status u) = Some (statusMessage u))).
  - intros a u u' Hm Hstep. exact (step_message a u u' Hm Hstep).
  - destruct o as [s|e|]; [destruct v|..]; reflexivity.
Qed.

Lemma message_follows_status_witness :
  run (five_misses ++ [AFrame (hit "HELLO"); ACommit (hit "HELLO"); AFrame miss])
      scanning0 = Some after_more /\
  message_of (status after_more) = Some (statusMessage after_more).
Proof.
  split; [vm_compute; reflexivity|].
  apply (message_follows_status (Some video0) (Some canvas0) (Granted camera)
           (five_misses ++ [AFrame (hit "HELLO"); ACommit (hit "HELLO");
                            AFrame miss])).
  vm_compute; reflexivity.
Defined.

(** ** What steps add to the log *)

Lemma step_lifecycle (a : Action) (w w' : World) :
  step a w = Some w' ->
  filter is_lifecycle_call (calls w') = filter is_lifecycle_call (calls w).
Proof.
  destruct a as [env|env|]; cbn [step].
  - destruct (pending w) as [|[h cb] rest] eqn:Hq; [discriminate|].
    intros H; injection H as <-. revert Hq.
    scan_cases w cb env; intros _; rewrite ?filter_app; cbn;
      rewrite ?app_nil_r; reflexivity.
  - destruct (Closure_eqb (rendered w) (closure_of w)); [discriminate|].
    intros H; injection H as <-.
    commit_cases w env; rewrite ?filter_app; cbn;
      rewrite ?app_nil_r; reflexivity.
  - intros H; injection H as <-.
    destruct_world w. cbn [result]. unfold handleSubmit.
    destruct (truthy_string res); unfold_scanner; rewrite ?filter_app; cbn;
      rewrite ?app_nil_r; reflexivity.
Qed.

Lemma filter_detect_default (l : list Call) :
  filter is_detect_toast (filter (is_toast variant_default) l)
  = filter is_detect_toast l.
Proof.
  induction l as [|c l IH]; [reflexivity|].
  destruct c; cbn; try exact IH.
  destruct variant; cbn; [|exact IH].
  destruct (String.eqb title "QR Code Found!"); cbn; rewrite IH; reflexivity.
Qed.

Lemma step_detect_toasts (a : Action) (w w' : World) :
  step a w = Some w' ->
  count is_detect_toast (calls w')
  = (count is_detect_toast (calls w) + if missed a w then 0 else 1)%nat.
Proof.
  intros Hstep. pose proof (step_default_toasts a w w' Hstep) as HT.
  unfold count. rewrite <- (filter_detect_default (calls w')), HT.
  rewrite filter_app, filter_detect_default, length_app. f_equal.
  unfold missed. destruct a as [env|env|].
  - destruct (decode_of (AFrame env) w) as [[qr|]|]; reflexivity.
  - destruct (decode_of (ACommit env) w) as [[qr|]|]; reflexivity.
  - unfold decode_of. cbn [callback_of].
    destruct (truthy_string (result w)); reflexivity.
Qed.

(** X3. Over any run, the number of "QR Code Found!" notifications grows
    by the number of steps whose decode attempt returns a payload: the
    notification is raised on every successful decode, not once per
    session, and by nothing else. *)
Theorem detect_toast_per_decode (acts : list Action) (w w' : World) :
  run acts w = Some w' ->
  count is_detect_toast (calls w')
  = (count is_detect_toast (calls w) + hits acts w)%nat.
Proof.
  revert w. induction acts as [|a acts IH]; intros w Hrun.
  - injection Hrun as <-. cbn. lia.
  - cbn in Hrun. cbn [hits].
    destruct (step a w) as [w1|] eqn:Hstep; [|discriminate].
    rewrite (IH w1 Hrun), (step_detect_toasts a w w1 Hstep). lia.
Qed.

Lemma detect_toast_per_decode_witness :
  run [ACommit (hit "HELLO"); AFrame miss] after_hello = Some after_more /\
  count is_detect_toast (calls after_hello) = 1%nat /\
  count is_detect_toast (calls after_more) = 2%nat.
Proof.
  split; [vm_compute; reflexivity|]. split; [reflexivity|].
  rewrite (detect_toast_per_decode [ACommit (hit "HELLO"); AFrame miss]
             after_hello after_more); vm_compute; reflexivity.
Defined.

(** X4. The Submit button is enabled only after a decode: in every
    session, whenever the rendered button is not disabled, at least one
    "QR Code Found!" notification has been raised. *)
Theorem submit_enabled_only_after_decode
    (v : option Video) (c : option Canvas) (o : Acquisition)
    (acts : list Action) (w : World) :
  run acts (mount v c o) = Some w ->
  submit_disabled (render w) = false ->
  (1 <= count is_detect_toast (calls w))%nat.
Proof.
  intros Hrun Hen.
  assert (H : result w = "" \/ (1 <= count is_detect_toast (calls w))%nat).
  { revert Hrun.
    apply (run_invariant
             (fun u => result u = "" \/
                       (1 <= count is_detect_toast (calls u))%nat)).
    - intros a u u' Hinv Hstep.
      destruct (step_state a u u' Hstep) as (HS & _).
      pose proof (step_detect_toasts a u u' Hstep) as HT.
      unfold missed in HT.
      destruct (callback_of a u) as [[cb env]|];
        [destruct (decode_of a u) as [[qr|]|]|];
        injection HS as _ ->; try (right; lia);
        (destruct Hinv as [E|E]; [left; exact E | right; lia]).
    - left. destruct o as [s|e|]; [destruct v|..]; reflexivity. }
  destruct H as [E|E]; [|exact E].
  cbn in Hen. rewrite E in Hen. discriminate.
Qed.

Lemma submit_enabled_only_after_decode_witness :
  submit_disabled (render after_hello) = false /\
  (1 <= count is_detect_toast (calls after_hello))%nat.
Proof.
  split; [reflexivity|].
  apply (submit_enabled_only_after_decode (Some video0) (Some canvas0)
           (Granted camera) (five_misses ++ [AFrame (hit "HELLO")])).
  - vm_compute; reflexivity.
  - reflexivity.
Defined.

(** X5. In a session whose acquisition succeeded with the video surface
    present, the acquired stream stays attached to the video element, and
    the session makes exactly one camera request, starts playback once and
    sets [isScanning] once (to true); while mounted it never logs a camera
    error and never stops a track. *)
Theorem stream_stays_attached
    (v : Video) (c : option Canvas) (s : MediaStream)
    (acts : list Action) (w : World) :
  run acts (mount (Some v) c (Granted s)) = Some w ->
  videoRef w = Some {| srcObject := Some s |} /\
  filter is_lifecycle_call (calls w) =
    [EvGetUserMedia "environment" 640 480; EvPlay; EvSetIsScanning true].
Proof.
  apply (run_invariant
           (fun u => videoRef u = Some {| srcObject := Some s |} /\
                     filter is_lifecycle_call (calls u) =
                       [EvGetUserMedia "environment" 640 480; EvPlay;
                        EvSetIsScanning true])).
  - intros a u u' (Hv & Hl) Hstep.
    destruct (step_state a u u' Hstep) as (_ & _ & Hv').
    rewrite Hv', (step_lifecycle a u u' Hstep). split; assumption.
  - split; reflexivity.
Qed.

Lemma stream_stays_attached_witness :
  run five_misses scanning0 = Some after_misses /\
  videoRef after_misses = Some {| srcObject := Some camera |} /\
  count is_getUserMedia (calls after_misses) = 1%nat.
Proof.
  split; [vm_compute; reflexivity|].
  destruct (stream_stays_attached video0 (Some canvas0) camera five_misses
              after_misses) as (H1 & H2).
  - vm_compute; reflexivity.
  - split; [exact H1 | reflexivity].
Defined.

(** ** The request queue *)

(** What one invocation does to the queue, the ref and the canvas. *)
Lemma scanQRCode_frame (self : Closure) (env : FrameEnv) (w : World) :
  let w' := exec (scanQRCode self env) w in
  let h := N.succ (raf_counter w) in
  (if passes_guard self w
   then pending w' = pending w ++ [(h, self)] /\
        animationFrameRef w' = Some h /\
        count is_request (calls w') = S (count is_request (calls w))
   else w' = w) /\
  canvasRef w' =
    (if reaches_jsQR self env w
     then Some {| width := videoWidth env; height := videoHeight env |}
     else canvasRef w).
Proof.
  unfold passes_guard, count.
  scan_cases w self env; rewrite ?filter_app, ?length_app; cbn;
    repeat split; lia.
Qed.

(** X6. One invocation of [scanQRCode] either fails the guard (a ref is
    null or the captured [isScanning] is false) and then changes nothing
    and requests no frame, so that the loop ends there; or it ends by one
    request for itself, whose handle it keeps in [animationFrameRef].  When
    the frame is not ready that request is all it does: state and canvas
    are untouched.  The canvas takes the size of the video frame exactly in
    the invocations that reach jsQR. *)
Theorem scanQRCode_effects (self : Closure) (env : FrameEnv) (w : World) :
  let w' := exec (scanQRCode self env) w in
  let h := N.succ (raf_counter w) in
  (passes_guard self w = false -> w' = w) /\
  (passes_guard self w = true ->
     pending w' = pending w ++ [(h, self)] /\
     animationFrameRef w' = Some h /\
     count is_request (calls w') = S (count is_request (calls w))) /\
  (passes_guard self w = true -> ready env = false ->
     calls w' = calls w ++ [EvRequestAnimationFrame h self] /\
     (status w', result w', statusMessage w', canvasRef w')
       = (status w, result w, statusMessage w, canvasRef w)) /\
  (reaches_jsQR self env w = true ->
     canvasRef w' =
       Some {| width := videoWidth env; height := videoHeight env |}) /\
  (reaches_jsQR self env w = false -> canvasRef w' = canvasRef w).
Proof.
  cbv zeta. destruct (scanQRCode_frame self env w) as (HQ & HC).
  cbv zeta in HQ, HC.
  split; [|split; [|split; [|split]]].
  - intros E. rewrite E in HQ. exact HQ.
  - intros E. rewrite E in HQ. exact HQ.
  - unfold passes_guard. scan_cases w self env; intros Hg Hr;
      try discriminate; repeat split.
  - intros E. rewrite E in HC. exact HC.
  - intros E. rewrite E in HC. exact HC.
Qed.

Lemma scanQRCode_effects_witness :
  let w' := exec (scanQRCode (closure_of scanning0) waiting) scanning0 in
  calls w' = calls scanning0
             ++ [EvRequestAnimationFrame 1 (closure_of scanning0)] /\
  (status w', result w', canvasRef w') = (scanning, "", Some canvas0).
Proof.
  cbv zeta.
  destruct (scanQRCode_effects (closure_of scanning0) waiting scanning0)
    as (_ & _ & H & _).
  destruct (H eq_refl eq_refl) as (H1 & H2).
  split; [exact H1|]. reflexivity.
Defined.

(** X7. In every session at most one animation-frame request is
    outstanding, and it is the one whose handle [animationFrameRef] holds;
    that handle is never 0, so the truthiness test of the cleanups never
    skips it. *)
Theorem at_most_one_request_outstanding
    (v : option Video) (c : option Canvas) (o : Acquisition)
    (acts : list Action) (w : World) :
  run acts (mount v c o) = Some w ->
  (List.length (pending w) <= 1)%nat /\
  forall h cb, In (h, cb) (pending w) ->
    animationFrameRef w = Some h /\
    truthy_handle (animationFrameRef w) = Some h.
Proof.
  intros Hrun.
  destruct (session_one_outstanding v c o acts w Hrun)
    as [Hq|(h & cb & Hq & Hr & Hne)]; rewrite Hq.
  - split; [cbn; lia|]. intros h cb [].
  - split; [cbn; lia|]. intros h' cb' [E|[]]. injection E as <- <-.
    split; [exact Hr|]. rewrite Hr. cbn.
    apply N.eqb_neq in Hne. rewrite Hne. reflexivity.
Qed.

Lemma at_most_one_request_outstanding_witness :
  run five_misses scanning0 = Some after_misses /\
  List.length (pending after_misses) = 1%nat /\
  animationFrameRef after_misses = Some 5%N.
Proof.
  split; [vm_compute; reflexivity|]. split; [reflexivity|].
  destruct (at_most_one_request_outstanding (Some video0) (Some canvas0)
              (Granted camera) five_misses after_misses) as (_ & H).
  - vm_compute; reflexivity.
  - apply (H 5%N {| cap_isScanning := true; cap_status := scanning |}).
    left. reflexivity.
Defined.

(** X8. A commit leaves no callback of an earlier render queued: in every
    session, after a commit the last committed [scanQRCode] is the one of
    the new render, and whatever is queued is that callback. *)
Theorem commit_drops_stale_callback
    (v : option Video) (c : option Canvas) (o : Acquisition)
    (acts : list Action) (env : FrameEnv) (w w' : World) :
  run acts (mount v c o) = Some w ->
  step (ACommit env) w = Some w' ->
  rendered w' = closure_of w /\
  forall e, In e (pending w') -> snd e = closure_of w.
Proof.
  intros Hrun. pose proof (session_one_outstanding v c o acts w Hrun) as Hinv.
  cbn [step].
  destruct (Closure_eqb (rendered w) (closure_of w)); [discriminate|].
  intros H; injection H as <-.
  rewrite !exec_seq. unfold scanEffectCleanup.
  pose proof (cancelPendingFrame_outstanding w Hinv) as Hc.
  set (w1 := exec (modify (with_rendered (closure_of w)))
               (exec cancelPendingFrame w)).
  assert (Hq1 : pending w1 = []) by exact Hc.
  assert (Hr1 : rendered w1 = closure_of w) by reflexivity.
  unfold scanEffect, when.
  destruct (cap_isScanning (closure_of w)).
  - destruct (scanQRCode_state (closure_of w) env w1) as (_ & _ & _ & Hr).
    destruct (scanQRCode_frame (closure_of w) env w1) as (HQ & _).
    cbv zeta in Hr, HQ. split; [congruence|].
    destruct (passes_guard (closure_of w) w1).
    + destruct HQ as (-> & _). rewrite Hq1. intros e [<-|[]]. reflexivity.
    + rewrite HQ, Hq1. intros e [].
  - change (exec (ret tt) w1) with w1. split; [exact Hr1|].
    rewrite Hq1. intros e [].
Qed.

Lemma commit_drops_stale_callback_witness :
  run (five_misses ++ [AFrame (hit "HELLO")]) scanning0 = Some after_hello /\
  (forall e, In e (pending after_hello) -> cap_status (snd e) = scanning) /\
  exists w', step (ACommit miss) after_hello = Some w' /\
             forall e, In e (pending w') -> cap_status (snd e) = detected.
Proof.
  split; [vm_compute; reflexivity|].
  split; [intros e [<-|[]]; reflexivity|].
  eexists. split; [reflexivity|].
  intros e He.
  destruct (commit_drops_stale_callback (Some video0) (Some canvas0)
              (Granted camera) (five_misses ++ [AFrame (hit "HELLO")]) miss
              after_hello _ eq_refl eq_refl) as (_ & H).
  rewrite (H e He). reflexivity.
Defined.

(** ** The loop keeps running *)

Lemma looping_one_outstanding (w : World) : looping w -> one_outstanding w.
Proof.
  intros (_ & _ & _ & [(_ & Hq)|(h & cb & Hq & Hr & Hne & _)]).
  - left. exact Hq.
  - right. exists h, cb. repeat split; assumption.
Qed.

Lemma scanQRCode_keeps_looping (self : Closure) (env : FrameEnv) (w : World) :
  videoRef w <> None -> canvasRef w <> None -> isScanning w = true ->
  cap_isScanning self = true -> pending w = [] ->
  looping (exec (scanQRCode self env) w).
Proof.
  intros Hv Hc Hi Hs Hq.
  destruct (scanQRCode_state self env w) as (_ & Hi' & Hv' & _).
  destruct (scanQRCode_frame self env w) as (HQ & HC).
  cbv zeta in *.
  assert (Hg : passes_guard self w = true).
  { unfold passes_guard. destruct (videoRef w), (canvasRef w); congruence. }
  rewrite Hg in HQ. destruct HQ as (HQ & HR & _).
  repeat split.
  - congruence.
  - rewrite HC. destruct (reaches_jsQR self env w); [discriminate|exact Hc].
  - congruence.
  - right. exists (N.succ (raf_counter w)), self. rewrite HQ, Hq.
    repeat split; auto. apply N.neq_succ_0.
Qed.

Lemma looping_step (a : Action) (w w' : World) :
  looping w -> step a w = Some w' -> looping w'.
Proof.
  intros HL. pose proof (looping_one_outstanding w HL) as Hone.
  destruct HL as (Hv & Hc & Hi & Hq).
  destruct a as [env|env|]; cbn [step].
  - destruct (pending w) as [|[h cb] rest] eqn:E; [discriminate|].
    intros H; injection H as <-.
    destruct Hq as [(_ & Hq)|(h' & cb' & Hq & _ & _ & Hcs)]; [discriminate|].
    injection Hq as -> -> ->.
    apply scanQRCode_keeps_looping; auto.
  - destruct (Closure_eqb (rendered w) (closure_of w)); [discriminate|].
    intros H; injection H as <-.
    rewrite !exec_seq. unfold scanEffectCleanup.
    pose proof (cancelPendingFrame_outstanding w Hone) as Hcq.
    destruct (cancelPendingFrame_state w) as (_ & _ & C3 & C4 & C5 & _).
    cbv zeta in *.
    set (w1 := exec (modify (with_rendered (closure_of w)))
                 (exec cancelPendingFrame w)).
    unfold scanEffect, when. cbn [closure_of cap_isScanning]. rewrite Hi.
    apply scanQRCode_keeps_looping.
    + change (videoRef w1) with (videoRef (exec cancelPendingFrame w)).
      congruence.
    + change (canvasRef w1) with (canvasRef (exec cancelPendingFrame w)).
      congruence.
    + change (isScanning w1) with (isScanning (exec cancelPendingFrame w)).
      congruence.
    + exact Hi.
    + exact Hcq.
  - intros H; injection H as <-.
    destruct (handleSubmit_state (result w) w) as (extra & -> & _).
    repeat split; assumption.
Qed.

(** X9. In a session whose acquisition succeeded with video surface and
    canvas present the loop never stops by itself, detection or not: until
    the first commit nothing is queued and that commit is due; from then
    on, after every step, exactly one callback is queued, so a next frame
    always runs [scanQRCode] again. *)
Theorem scan_loop_never_halts
    (v : Video) (c : Canvas) (s : MediaStream)
    (acts : list Action) (w : World) :
  run acts (mount (Some v) (Some c) (Granted s)) = Some w ->
  (pending w = [] /\ forall env, step (ACommit env) w <> None) \/
  (exists h cb, pending w = [(h, cb)] /\ animationFrameRef w = Some h /\
                cap_isScanning cb = true /\
                forall env, step (AFrame env) w <> None).
Proof.
  intros Hrun.
  assert (HL : looping w).
  { revert Hrun. apply (run_invariant looping).
    - exact looping_step.
    - repeat split; try discriminate. left. split; reflexivity. }
  destruct HL as (_ & _ & Hi & [(Hr & Hq)|(h & cb & Hq & Href & _ & Hcs)]).
  - left. split; [exact Hq|]. intros env. cbn [step].
    rewrite Hr. unfold closure_of, Closure_eqb. cbn. rewrite Hi. cbn.
    discriminate.
  - right. exists h, cb. repeat split; auto.
    intros env. cbn [step]. rewrite Hq. discriminate.
Qed.

Lemma scan_loop_never_halts_witness :
  run (five_misses ++ [AFrame (hit "HELLO")]) scanning0 = Some after_hello /\
  status after_hello = detected /\
  List.length (pending after_hello) = 1%nat /\
  step (AFrame miss) after_hello <> None.
Proof.
  split; [vm_compute; reflexivity|]. split; [reflexivity|].
  destruct (scan_loop_never_halts video0 canvas0 camera
              (five_misses ++ [AFrame (hit "HELLO")]) after_hello)
    as [(Hq & _)|(h & cb & Hq & _ & _ & Hstep)].
  - vm_compute; reflexivity.
  - discriminate Hq.
  - split; [rewrite Hq; reflexivity | apply Hstep].
Defined.

(** X10. When the canvas ref is null the loop never starts although the
    acquisition succeeded: throughout the session the status, its message
    and the overlay say "scanning", but no animation frame is ever
    requested, nothing is queued and the result stays empty, whatever the
    camera shows. *)
Theorem no_canvas_never_scans
    (v : Video) (s : MediaStream) (acts : list Action) (w : World) :
  run acts (mount (Some v) None (Granted s)) = Some w ->
  status w = scanning /\ scanning_overlay (render w) = true /\
  result w = "" /\ pending w = [] /\
  count is_request (calls w) = 0%nat.
Proof.
  intros Hrun.
  assert (H : canvasRef w = None /\ status w = scanning /\ result w = "" /\
              pending w = [] /\ count is_request (calls w) = 0%nat).
  { revert Hrun.
    apply (run_invariant
             (fun u => canvasRef u = None /\ status u = scanning /\
                       result u = "" /\ pending u = [] /\
                       count is_request (calls u) = 0%nat)).
    - intros a u u' (Hc & Hs & Hr & Hq & Hn).
      destruct a as [env|env|]; cbn [step].
      + rewrite Hq. discriminate.
      + destruct (Closure_eqb (rendered u) (closure_of u)); [discriminate|].
        intros H; injection H as <-. revert Hc Hs Hr Hq Hn. unfold count.
        commit_cases u env; intros Hc Hs Hr Hq Hn; try discriminate;
          subst; rewrite ?filter_app, ?length_app; cbn;
          repeat split; cbn in Hn; lia.
      + intros H; injection H as <-. revert Hc Hs Hr Hq Hn. unfold count.
        destruct_world u. cbn [canvasRef status result pending calls].
        intros -> -> -> -> Hn. unfold handleSubmit. cbn [truthy_string].
        unfold_scanner. rewrite ?filter_app, ?length_app. cbn.
        repeat split. lia.
    - repeat split. }
  destruct H as (_ & Hs & Hr & Hq & Hn).
  repeat split; auto. cbn. rewrite Hs. reflexivity.
Qed.

Lemma no_canvas_never_scans_witness :
  run [ACommit (hit "HELLO"); ASubmit] no_canvas0 = Some no_canvas1 /\
  status no_canvas1 = scanning /\ result no_canvas1 = "" /\
  pending no_canvas1 = [].
Proof.
  split; [vm_compute; reflexivity|].
  destruct (no_canvas_never_scans video0 camera
              [ACommit (hit "HELLO"); ASubmit] no_canvas1)
    as (H1 & _ & H2 & H3 & _).
  - vm_compute; reflexivity.
  - repeat split; assumption.
Defined.

(** ** The rendered view *)

(** X11. [getStatusColor] gives two statuses the same colour only when
    they are the same status or are 'error' and 'no-camera', which share
    the error colour. *)
Theorem getStatusColor_separates (a b : ScannerStatus) :
  getStatusColor a = getStatusColor b <->
  a = b \/ (a = error /\ b = no_camera) \/ (a = no_camera /\ b = error).
Proof.
  split.
  - destruct a, b; cbn; intros H; try discriminate H; auto.
  - intros [->|[(-> & ->)|(-> & ->)]]; reflexivity.
Qed.

(** X12. In every session the status area shows the error colour exactly
    when the acquisition failed; and after a failed acquisition the view
    never changes: no overlay is shown, the input stays empty and the
    Submit button stays disabled. *)
Theorem error_colour_iff_failed
    (v : option Video) (c : option Canvas) (o : Acquisition)
    (acts : list Action) (w : World) :
  run acts (mount v c o) = Some w ->
  (getStatusColor (status w) = "text-scanner-error" <-> failed o = true) /\
  (failed o = true ->
     scanning_overlay (render w) = false /\
     success_overlay (render w) = false /\
     input_value (render w) = "" /\
     submit_disabled (render w) = true).
Proof.
  intros Hrun.
  destruct o as [s|e|]; [destruct v as [v|]|..].
  - destruct (scanning_session_status v c s acts w Hrun) as (_ & [E|E]);
      rewrite E; cbn; repeat split; intros; discriminate.
  - destruct (idle_run acts (mount None c (Granted s)) w eq_refl eq_refl Hrun)
      as (_ & _ & I3 & _).
    rewrite I3. cbn. repeat split; intros; discriminate.
  - destruct (idle_run acts (mount v c (Rejected e)) w eq_refl eq_refl Hrun)
      as (_ & _ & I3 & I4 & _).
    unfold render. cbn [scanning_overlay success_overlay input_value
                        submit_disabled]. rewrite I3, I4. cbn.
    repeat split.
  - destruct (idle_run acts (mount v c ApiAbsent) w eq_refl eq_refl Hrun)
      as (_ & _ & I3 & I4 & _).
    unfold render. cbn [scanning_overlay success_overlay input_value
                        submit_disabled]. rewrite I3, I4. cbn.
    repeat split.
Qed.

Lemma error_colour_iff_failed_witness :
  run [ASubmit; ACommit miss] denied0 = Some denied1 /\
  getStatusColor (status denied1) = "text-scanner-error" /\
  submit_disabled (render denied1) = true.
Proof.
  split; [vm_compute; reflexivity|].
  destruct (error_colour_iff_failed (Some video0) (Some canvas0)
              (Rejected NotAllowedError) [ASubmit; ACommit miss] denied1)
    as (H1 & H2).
  - vm_compute; reflexivity.
  - split; [apply H1; reflexivity|]. apply (H2 eq_refl).
Defined.

(** X13. Through the rendered button Manual Submit never raises its
    "No Result" warning: the button is disabled exactly when [result] is
    empty, and a click then does nothing; otherwise the click makes exactly
    the three calls of the non-empty branch, one console.log, one
    notification and one alert, in this order.  The state is never
    changed. *)
Theorem submit_button_gates_warning (w : World) :
  clickSubmit w =
    with_calls
      (calls w ++
       if submit_disabled (render w) then []
       else [EvConsoleLog ["QR Code Result:"; result w];
             EvToast "Result Submitted"
                     ("Logged to console: " ++ result w)%string variant_default;
             EvAlert ("QR Code Result: " ++ result w)%string]) w /\
  (submit_disabled (render w) = true <-> result w = "") /\
  count is_no_result_toast (calls (clickSubmit w))
    = count is_no_result_toast (calls w) /\
  count is_console_log (calls (clickSubmit w))
    = (count is_console_log (calls w)
       + if submit_disabled (render w) then 0 else 1)%nat /\
  count is_alert (calls (clickSubmit w))
    = (count is_alert (calls w)
       + if submit_disabled (render w) then 0 else 1)%nat /\
  (result w = "" -> clickSubmit w = w).
Proof.
  unfold clickSubmit, render. cbn [submit_disabled].
  destruct_world w. cbn [result]. unfold handleSubmit, count.
  destruct res as [|ch res]; cbn [truthy_string negb].
  - cbn [calls with_calls]. rewrite app_nil_r.
    repeat split; auto; lia.
  - unfold_scanner. rewrite ?filter_app, ?length_app, <- ?app_assoc. cbn.
    repeat split; try lia; try discriminate.
Qed.

Lemma submit_button_gates_warning_witness :
  clickSubmit scanning0 = scanning0 /\
  calls (clickSubmit after_hello) =
    calls after_hello ++
    [EvConsoleLog ["QR Code Result:"; "HELLO"];
     EvToast "Result Submitted" "Logged to console: HELLO" variant_default;
     EvAlert "QR Code Result: HELLO"].
Proof.
  destruct (submit_button_gates_warning scanning0) as (_ & _ & _ & _ & _ & H).
  destruct (submit_button_gates_warning after_hello) as (H' & _).
  split; [apply H; reflexivity|]. rewrite H'. reflexivity.
Defined.

(** ** Unmounting, on concrete sessions *)

Lemma unmount_cancels_outstanding_witness :
  run (five_misses ++ [AFrame (hit "HELLO")]) scanning0 = Some after_hello /\
  pending after_hello <> [] /\
  pending (exec unmount after_hello) = [].
Proof.
  split; [vm_compute; reflexivity|]. split; [discriminate|].
  apply (unmount_cancels_outstanding (Some video0) (Some canvas0)
           (Granted camera) (five_misses ++ [AFrame (hit "HELLO")])).
  vm_compute; reflexivity.
Defined.

(** X15. At unmount the cleanup stops no track, attached or not: in a
    session whose acquisition succeeded with the video surface present the
    acquired stream is attached when the component unmounts, but the ref
    through which the cleanup would reach it is already null, so none of
    its tracks is stopped. *)
Theorem unmount_leaves_attached_stream_live
    (v : Video) (c : option Canvas) (s : MediaStream)
    (acts : list Action) (w : World) :
  run acts (mount (Some v) c (Granted s)) = Some w ->
  attached_tracks w = getTracks s /\
  count is_track_stop (calls (exec unmount w)) = 0%nat /\
  (forall t, ~ In (EvTrackStop t) (calls (exec unmount w))).
Proof.
  intros Hrun.
  assert (H : videoRef w = Some {| srcObject := Some s |} /\
              filter is_track_stop (calls w) = []).
  { revert Hrun.
    apply (run_invariant
             (fun u => videoRef u = Some {| srcObject := Some s |} /\
                       filter is_track_stop (calls u) = [])).
    - intros a u u' (Hv & Hl) Hstep.
      destruct (step_state a u u' Hstep) as (_ & _ & Hv').
      split; [congruence|].
      assert (Hsub : forall l, filter is_track_stop
                                 (filter is_lifecycle_call l)
                               = filter is_track_stop l).
      { induction l as [|x l IH]; [reflexivity|].
        destruct x; cbn; rewrite ?IH; reflexivity. }
      rewrite <- Hsub, (step_lifecycle a u u' Hstep), Hsub. exact Hl.
    - split; reflexivity. }
  destruct H as (Hv & Hl).
  destruct (unmount_exec w) as (U1 & _).
  assert (Hf : filter is_track_stop (calls (exec unmount w)) = []).
  { rewrite U1, !filter_app, Hl. unfold cancel_calls.
    destruct (truthy_handle (animationFrameRef w)); reflexivity. }
  split; [unfold attached_tracks; rewrite Hv; reflexivity|].
  split; [unfold count; rewrite Hf; reflexivity|].
  intros t Hin.
  assert (Hin' : In (EvTrackStop t)
                   (filter is_track_stop (calls (exec unmount w)))).
  { apply filter_In. split; [exact Hin | reflexivity]. }
  rewrite Hf in Hin'. exact Hin'.
Qed.

Lemma unmount_leaves_attached_stream_live_witness :
  run (five_misses ++ [AFrame (hit "HELLO")]) scanning0 = Some after_hello /\
  attached_tracks after_hello = [7%nat] /\
  ~ In (EvTrackStop 7%nat) (calls (exec unmount after_hello)).
Proof.
  split; [vm_compute; reflexivity|].
  destruct (unmount_leaves_attached_stream_live video0 (Some canvas0) camera
              (five_misses ++ [AFrame (hit "HELLO")]) after_hello)
    as (H1 & _ & H3).
  - vm_compute; reflexivity.
  - split; [exact H1 | apply H3].
Defined.
